(** * SmartSDLC: the direct Watsonx client, embedded and verified

    A shallow embedding of [watsonx_direct_api.py] (class [WatsonxDirectAPI]:
    token acquisition and caching, request construction, failure mapping,
    classification parsing) and of the [chat_assistant] method of the copy of
    that class in [watsonx_integration.py].

    Conventions of the model.
    - A Python value that can travel through JSON is a [json]; [JNull] is
      [None].  Floats that the code only passes on (temperatures) are
      rationals; the clock is read in whole seconds.
    - Text is a [string], a sequence of 8-bit characters (the UTF-8 bytes of
      the Python text).  Indices count characters of that sequence; the
      delimiters the code searches for are ASCII, so the slices agree.
    - A method is a computation of type [Py A]: it takes the client object and
      the world, and gives back an outcome (a value or a raised exception)
      with the updated client and world.  Mutations survive a raise, as in
      Python.
    - The environment is explicit: [Env] fixes what the clock shows at each
      reading and what every [requests.post] meets on the network; [Lib]
      holds the renderings that belong to the interpreter and its libraries
      (repr of a value, message texts, the JSON decoder). *)

From Stdlib Require Import ZArith QArith String Ascii List Bool Lia DecimalString.
Import ListNotations.

Local Open Scope string_scope.
Local Open Scope Z_scope.

(* ===================================================================== *)
(** ** Python values                                                      *)
(* ===================================================================== *)

(** The floats that are no number of their own: [json.loads] reads them
    from the constants NaN, Infinity and -Infinity. *)
Inductive nonfinite : Type :=
| NaN
| PosInfinity
| NegInfinity.

#[local] Unset Elimination Schemes.

Inductive json : Type :=
| JNull
| JBool (b : bool)
| JInt (z : Z)
| JFloat (q : Q)
| JStr (s : string)
| JArr (l : list json)
| JObj (d : list (string * json))
| JNonFinite (x : nonfinite).

#[local] Set Elimination Schemes.

(** A dict keeps its keys in insertion order; a key occurs once. *)
Definition dict := list (string * json).

Fixpoint dict_get (k : string) (d : dict) : option json :=
  match d with
  | [] => None
  | (k', v) :: d' => if String.eqb k k' then Some v else dict_get k d'
  end.

Fixpoint dict_set (k : string) (v : json) (d : dict) : dict :=
  match d with
  | [] => [(k, v)]
  | (k', v') :: d' =>
      if String.eqb k k' then (k', v) :: d' else (k', v') :: dict_set k v d'
  end.

Definition dict_keys (d : dict) : list string := map fst d.

(** [bool(v)]: the truth value Python gives a value in [if] and [and]. *)
Definition truthy (v : json) : bool :=
  match v with
  | JNull => false
  | JBool b => b
  | JInt z => negb (z =? 0)
  | JFloat q => negb (Qeq_bool q 0)
  | JStr s => negb (String.eqb s EmptyString)
  | JArr l => match l with [] => false | _ => true end
  | JObj d => match d with [] => false | _ => true end
  | JNonFinite _ => true
  end.

(** The double quote, for texts that contain one. *)
Definition dq : string := String "034"%char EmptyString.

Definition nl : string := String "010"%char EmptyString.

Definition string_of_Z (z : Z) : string := NilZero.string_of_int (Z.to_int z).

(** *** Text operations used by the client *)

(** [s.find(c)] for a one-character needle: first position, or -1. *)
Fixpoint find_from (c : ascii) (s : string) (i : Z) : Z :=
  match s with
  | EmptyString => -1
  | String a s' => if Ascii.eqb a c then i else find_from c s' (i + 1)
  end.

Definition str_find (c : ascii) (s : string) : Z := find_from c s 0.

(** [s.rfind(c)]: last position, or -1. *)
Fixpoint rfind_from (c : ascii) (s : string) (i : Z) (last : Z) : Z :=
  match s with
  | EmptyString => last
  | String a s' =>
      rfind_from c s' (i + 1) (if Ascii.eqb a c then i else last)
  end.

Definition str_rfind (c : ascii) (s : string) : Z := rfind_from c s 0 (-1).

(** [s[a:b]] for indices that are not negative (the only use the client
    makes of slicing). *)
Definition str_slice (s : string) (a b : Z) : string :=
  substring (Z.to_nat a) (Z.to_nat (b - a)) s.

(** [s.rstrip('/')] *)
Fixpoint rstrip_slash (s : string) : string :=
  match s with
  | EmptyString => EmptyString
  | String a s' =>
      match rstrip_slash s' with
      | EmptyString => if Ascii.eqb a "/"%char then EmptyString
                       else String a EmptyString
      | r => String a r
      end
  end.

(** [needle in hay] on text. *)
Fixpoint str_contains (needle hay : string) : bool :=
  prefix needle hay ||
  match hay with
  | EmptyString => false
  | String _ hay' => str_contains needle hay'
  end.

(** The same as a proposition: [hay] is [pre ++ needle ++ post]. *)
Definition Contains (needle hay : string) : Prop :=
  exists pre post, hay = pre ++ needle ++ post.

(* ===================================================================== *)
(** ** Exceptions                                                         *)
(* ===================================================================== *)

(** The classes the two modules can meet: builtins, [json.JSONDecodeError]
    and the hierarchy of [requests.exceptions]. *)
Inductive exn_class : Type :=
| Exception
| ValueError | TypeError | AttributeError
| LookupError | KeyError | IndexError
| NameError | UnboundLocalError
| OSError
| JSONDecodeError                 (* json.JSONDecodeError *)
| RequestException
| HTTPError | ConnectionError | Timeout
| ConnectTimeout | ReadTimeout
| InvalidJSONError
| RequestsJSONDecodeError.        (* requests.exceptions.JSONDecodeError *)

Definition exn_class_eqb (a b : exn_class) : bool :=
  match a, b with
  | Exception, Exception | ValueError, ValueError | TypeError, TypeError
  | AttributeError, AttributeError | LookupError, LookupError
  | KeyError, KeyError | IndexError, IndexError | NameError, NameError
  | UnboundLocalError, UnboundLocalError | OSError, OSError
  | JSONDecodeError, JSONDecodeError | RequestException, RequestException
  | HTTPError, HTTPError | ConnectionError, ConnectionError
  | Timeout, Timeout | ConnectTimeout, ConnectTimeout
  | ReadTimeout, ReadTimeout | InvalidJSONError, InvalidJSONError
  | RequestsJSONDecodeError, RequestsJSONDecodeError => true
  | _, _ => false
  end.

(** The class itself and all its ancestors below [BaseException]. *)
Definition ancestors (c : exn_class) : list exn_class :=
  match c with
  | Exception => [Exception]
  | ValueError => [ValueError; Exception]
  | TypeError => [TypeError; Exception]
  | AttributeError => [AttributeError; Exception]
  | LookupError => [LookupError; Exception]
  | KeyError => [KeyError; LookupError; Exception]
  | IndexError => [IndexError; LookupError; Exception]
  | NameError => [NameError; Exception]
  | UnboundLocalError => [UnboundLocalError; NameError; Exception]
  | OSError => [OSError; Exception]
  | JSONDecodeError => [JSONDecodeError; ValueError; Exception]
  | RequestException => [RequestException; OSError; Exception]
  | HTTPError => [HTTPError; RequestException; OSError; Exception]
  | ConnectionError => [ConnectionError; RequestException; OSError; Exception]
  | Timeout => [Timeout; RequestException; OSError; Exception]
  | ConnectTimeout =>
      [ConnectTimeout; ConnectionError; Timeout; RequestException; OSError;
       Exception]
  | ReadTimeout => [ReadTimeout; Timeout; RequestException; OSError; Exception]
  | InvalidJSONError =>
      [InvalidJSONError; RequestException; OSError; Exception]
  | RequestsJSONDecodeError =>
      [RequestsJSONDecodeError; InvalidJSONError; JSONDecodeError;
       RequestException; OSError; ValueError; Exception]
  end.

Definition issubclass (c parent : exn_class) : bool :=
  existsb (exn_class_eqb parent) (ancestors c).

(** What [requests.post] hands back when the server answered. *)
Record Response : Type := mkResponse {
  status_code : Z;
  reason : string;
  resp_url : string;
  text : string
}.

(** An exception object: its class, [str(e)], and the [response] attribute
    that [requests] attaches to an [HTTPError]. *)
Record exn : Type := mkExn {
  exc_class : exn_class;
  exc_str : string;
  exc_response : option Response
}.

Definition isinstance (e : exn) (c : exn_class) : bool :=
  issubclass (exc_class e) c.

Inductive outcome (A : Type) : Type :=
| Ok (a : A)
| Raise (e : exn).

Arguments Ok {A} a.
Arguments Raise {A} e.

(* ===================================================================== *)
(** ** The JSON decoder ([json.loads])                                    *)
(* ===================================================================== *)

(** A recursive-descent decoder for the JSON grammar as Python's [json]
    module scans it: whitespace is space, tab, newline and carriage return;
    a number is an [int] unless it has a fraction or an exponent; a string
    may not hold a raw control character; a key that comes twice keeps its
    first place and its last value; the constants NaN, Infinity and
    -Infinity are read as the floats they name.  The limits of the
    interpreter (the depth of its recursion, the number of digits it reads
    into an [int]) are not part of the decoder: it stands for [json.loads]
    on the documents that stay within them. *)
Module JSONDecoder.

Definition code (c : ascii) : N := N_of_ascii c.

Definition is_ws (c : ascii) : bool :=
  match code c with
  | 32%N | 9%N | 10%N | 13%N => true
  | _ => false
  end.

Definition is_digit (c : ascii) : bool :=
  ((48 <=? code c) && (code c <=? 57))%N.

Definition digit_val (c : ascii) : Z := Z.of_N (code c - 48).

Definition hex_val (c : ascii) : option N :=
  let n := code c in
  if ((48 <=? n) && (n <=? 57))%N then Some (n - 48)%N
  else if ((65 <=? n) && (n <=? 70))%N then Some (n - 55)%N
  else if ((97 <=? n) && (n <=? 102))%N then Some (n - 87)%N
  else None.

Fixpoint skip_ws (s : string) : string :=
  match s with
  | String c s' => if is_ws c then skip_ws s' else s
  | EmptyString => s
  end.

(** The longest run of digits at the head: its value, its length, the rest. *)
Fixpoint digits (s : string) (acc : Z) (n : nat) : Z * nat * string :=
  match s with
  | String c s' =>
      if is_digit c then digits s' (10 * acc + digit_val c) (S n)
      else (acc, n, s)
  | EmptyString => (acc, n, s)
  end.

(** Four hexadecimal digits. *)
Definition hex4 (s : string) : option (N * string) :=
  match s with
  | String a (String b (String c (String d r))) =>
      match hex_val a, hex_val b, hex_val c, hex_val d with
      | Some x, Some y, Some z, Some w =>
          Some (((x * 16 + y) * 16 + z) * 16 + w, r)%N
      | _, _, _, _ => None
      end
  | _ => None
  end.

Definition byte (n : N) : string := String (ascii_of_N n) EmptyString.

(** The UTF-8 bytes of a code point. *)
Definition utf8 (u : N) : string :=
  (if u <? 128 then byte u
   else if u <? 2048 then byte (192 + u / 64) ++ byte (128 + u mod 64)
   else if u <? 65536 then
     byte (224 + u / 4096) ++ byte (128 + (u / 64) mod 64)
     ++ byte (128 + u mod 64)
   else
     byte (240 + u / 262144) ++ byte (128 + (u / 4096) mod 64)
     ++ byte (128 + (u / 64) mod 64) ++ byte (128 + u mod 64))%N.

(** After a [\u] escape gave a high surrogate: join it with a low one that
    follows as a second escape, as the decoder does. *)
Definition join_surrogate (u : N) (r : string) : N * string :=
  if ((55296 <=? u) && (u <=? 56319))%N then
    match r with
    | String "\" (String "u" r') =>
        match hex4 r' with
        | Some (u2, r'') =>
            if ((56320 <=? u2) && (u2 <=? 57343))%N
            then (65536 + (u - 55296) * 1024 + (u2 - 56320), r'')%N
            else (u, r)
        | None => (u, r)
        end
    | _ => (u, r)
    end
  else (u, r).

(** The body of a string, after its opening quote, up to the closing one. *)
Fixpoint string_body (fuel : nat) (s : string) : option (string * string) :=
  match fuel with
  | O => None
  | S f =>
      match s with
      | EmptyString => None
      | String c s' =>
          if Ascii.eqb c "034" then Some (EmptyString, s')
          else if Ascii.eqb c "\" then
            match s' with
            | EmptyString => None
            | String e s'' =>
                let lit (x : string) :=
                  match string_body f s'' with
                  | Some (t, r) => Some (x ++ t, r)
                  | None => None
                  end in
                if Ascii.eqb e "034" then lit dq
                else if Ascii.eqb e "\" then lit "\"
                else if Ascii.eqb e "/" then lit "/"
                else if Ascii.eqb e "b" then lit (byte 8)
                else if Ascii.eqb e "f" then lit (byte 12)
                else if Ascii.eqb e "n" then lit (byte 10)
                else if Ascii.eqb e "r" then lit (byte 13)
                else if Ascii.eqb e "t" then lit (byte 9)
                else if Ascii.eqb e "u" then
                  match hex4 s'' with
                  | Some (u, r) =>
                      let '(u', r') := join_surrogate u r in
                      match string_body f r' with
                      | Some (t, r'') => Some (utf8 u' ++ t, r'')
                      | None => None
                      end
                  | None => None
                  end
                else None
            end
          else if (code c <? 32)%N then None
          else
            match string_body f s' with
            | Some (t, r) => Some (String c t, r)
            | None => None
            end
      end
  end.

Definition pow10 (n : nat) : positive := Pos.pow 10 (Pos.of_nat n).

(** A number, scanned as far as it goes: sign, integer part without a
    leading zero, then an optional fraction and an optional exponent. *)
Definition number (s : string) : option (json * string) :=
  let '(neg, s1) :=
    match s with
    | String "-" r => (true, r)
    | _ => (false, s)
    end in
  let int_part :=
    match s1 with
    | String "0" r => Some (0, r)
    | String c _ =>
        if is_digit c then let '(v, _, r) := digits s1 0 O in Some (v, r)
        else None
    | EmptyString => None
    end in
  match int_part with
  | None => None
  | Some (iv, s2) =>
      let '(mant, scale, s3, has_frac) :=
        match s2 with
        | String "." r =>
            match digits r iv O with
            | (_, O, _) => (iv, O, s2, false)
            | (m, k, r') => (m, k, r', true)
            end
        | _ => (iv, O, s2, false)
        end in
      let '(ex, s4, has_exp) :=
        match s3 with
        | String e r =>
            if Ascii.eqb e "e" || Ascii.eqb e "E" then
              let '(eneg, r1) :=
                match r with
                | String "-" r' => (true, r')
                | String "+" r' => (false, r')
                | _ => (false, r)
                end in
              match digits r1 0 O with
              | (_, O, _) => (0, s3, false)
              | (v, _, r2) => ((if eneg then - v else v), r2, true)
              end
            else (0, s3, false)
        | EmptyString => (0, s3, false)
        end in
      let signed := if neg then - mant else mant in
      if has_frac || has_exp then
        let k := ex - Z.of_nat scale in
        let q :=
          if 0 <=? k then Qmake (signed * Z.pow 10 k) 1
          else Qmake signed (Pos.pow 10 (Z.to_pos (- k))) in
        Some (JFloat q, s4)
      else Some (JInt signed, s4)
  end.

Fixpoint value (fuel : nat) (s : string) : option (json * string) :=
  match fuel with
  | O => None
  | S f =>
      match s with
      | String "{" r =>
          match skip_ws r with
          | String "}" r' => Some (JObj [], r')
          | r' => members f r' []
          end
      | String "[" r =>
          match skip_ws r with
          | String "]" r' => Some (JArr [], r')
          | r' => elements f r' []
          end
      | String "034" r =>
          match string_body (S (String.length r)) r with
          | Some (t, r') => Some (JStr t, r')
          | None => None
          end
      | String "n" (String "u" (String "l" (String "l" r))) =>
          Some (JNull, r)
      | String "t" (String "r" (String "u" (String "e" r))) =>
          Some (JBool true, r)
      | String "f" (String "a" (String "l" (String "s" (String "e" r)))) =>
          Some (JBool false, r)
      | String "N" (String "a" (String "N" r)) =>
          Some (JNonFinite NaN, r)
      | String "I" (String "n" (String "f" (String "i" (String "n"
          (String "i" (String "t" (String "y" r))))))) =>
          Some (JNonFinite PosInfinity, r)
      | String "-" (String "I" (String "n" (String "f" (String "i"
          (String "n" (String "i" (String "t" (String "y" r)))))))) =>
          Some (JNonFinite NegInfinity, r)
      | _ => number s
      end
  end

with elements (fuel : nat) (s : string) (acc : list json)
  : option (json * string) :=
  match fuel with
  | O => None
  | S f =>
      match value f s with
      | None => None
      | Some (v, r) =>
          match skip_ws r with
          | String "]" r' => Some (JArr (rev (v :: acc)), r')
          | String "," r' => elements f (skip_ws r') (v :: acc)
          | _ => None
          end
      end
  end

with members (fuel : nat) (s : string) (acc : dict)
  : option (json * string) :=
  match fuel with
  | O => None
  | S f =>
      match s with
      | String "034" r =>
          match string_body (S (String.length r)) r with
          | None => None
          | Some (k, r1) =>
              match skip_ws r1 with
              | String ":" r2 =>
                  match value f (skip_ws r2) with
                  | None => None
                  | Some (v, r3) =>
                      match skip_ws r3 with
                      | String "}" r' => Some (JObj (dict_set k v acc), r')
                      | String "," r' =>
                          members f (skip_ws r') (dict_set k v acc)
                      | _ => None
                      end
                  end
              | _ => None
              end
          end
      | _ => None
      end
  end.

(** [json.loads(s)]: one value, with nothing but whitespace around it.
    [None] stands for [json.JSONDecodeError]. *)
Definition loads (s : string) : option json :=
  match value (2 * String.length s + 2) (skip_ws s) with
  | Some (v, r) =>
      match skip_ws r with
      | EmptyString => Some v
      | _ => None
      end
  | None => None
  end.

End JSONDecoder.

(* ===================================================================== *)
(** ** The world outside the client                                       *)
(* ===================================================================== *)

(** The arguments of one [requests.post]: [data=] sends a form, [json=] a
    Python object serialised by the library. *)
Inductive Body : Type :=
| FormData (fields : list (string * string))
| JsonPayload (payload : json).

Record Request : Type := mkRequest {
  req_url : string;
  req_headers : list (string * string);
  req_body : Body;
  req_timeout : Z
}.

(** What [requests.post] itself can raise: no answer came back. *)
Inductive transport_fault : Type :=
| ConnectionFault        (* requests.exceptions.ConnectionError *)
| TimeoutFault           (* requests.exceptions.Timeout *)
| ConnectTimeoutFault    (* requests.exceptions.ConnectTimeout *)
| ReadTimeoutFault       (* requests.exceptions.ReadTimeout *)
| OtherFault.            (* any other RequestException, e.g. TooManyRedirects *)

Definition fault_class (f : transport_fault) : exn_class :=
  match f with
  | ConnectionFault => ConnectionError
  | TimeoutFault => Timeout
  | ConnectTimeoutFault => ConnectTimeout
  | ReadTimeoutFault => ReadTimeout
  | OtherFault => RequestException
  end.

Inductive PostOutcome : Type :=
| Answered (r : Response)
| Failed (f : transport_fault) (msg : string).

(** One request that went out, with what it met. *)
Record Exchange : Type := mkExchange {
  sent : Request;
  met : PostOutcome
}.

(** The environment: the [n]-th reading of [time.time()], and the fate of a
    request given everything that was exchanged before it. *)
Record Env : Type := mkEnv {
  time_time : nat -> Z;
  network : list Exchange -> Request -> PostOutcome
}.

(** The part of the world a call changes: how often the clock was read, and
    the requests performed so far, oldest first. *)
Record World : Type := mkWorld {
  ticks : nat;
  wire : list Exchange
}.

(** Renderings owned by the interpreter and its libraries. *)
Record Lib : Type := mkLib {
  (** [repr(v)] *)
  py_repr : json -> string;
  (** [json.loads]; [None] is a decode error *)
  json_loads : string -> option json;
  (** [str(e)] of the decode error for a document *)
  json_error_str : string -> string;
  (** [str(e)] of an exception the interpreter raises for an operation
      (named by the second argument) on an operand *)
  interp_str : exn_class -> string -> json -> string
}.

(* ===================================================================== *)
(** ** The client object and the method monad                             *)
(* ===================================================================== *)

Record Client : Type := mkClient {
  api_key : string;
  project_id : string;
  url : string;
  model_id : string;
  access_token : json;
  token_expiry : Z
}.

Definition Py (A : Type) : Type := Client -> World -> outcome A * Client * World.

Definition ret {A} (a : A) : Py A := fun c w => (Ok a, c, w).

Definition raise {A} (e : exn) : Py A := fun c w => (Raise e, c, w).

Definition bind {A B} (m : Py A) (k : A -> Py B) : Py B :=
  fun c w =>
    match m c w with
    | (Ok a, c', w') => k a c' w'
    | (Raise e, c', w') => (Raise e, c', w')
    end.

Declare Scope py_scope.
Delimit Scope py_scope with py.
Notation "x <- m ;; k" := (bind m (fun x => k))
  (at level 61, m at next level, right associativity) : py_scope.
Notation "m ;; k" := (bind m (fun _ => k))
  (at level 61, right associativity) : py_scope.
Local Open Scope py_scope.

(** [try: body except ...: handler]; a handler that matches no clause
    raises the exception again. *)
Definition try_except {A} (body : Py A) (handler : exn -> Py A) : Py A :=
  fun c w =>
    match body c w with
    | (Raise e, c', w') => handler e c' w'
    | r => r
    end.

Definition get_self : Py Client := fun c w => (Ok c, c, w).

Definition set_access_token (v : json) : Py unit :=
  fun c w =>
    (Ok tt,
     mkClient (api_key c) (project_id c) (url c) (model_id c) v
              (token_expiry c),
     w).

Definition set_token_expiry (t : Z) : Py unit :=
  fun c w =>
    (Ok tt,
     mkClient (api_key c) (project_id c) (url c) (model_id c)
              (access_token c) t,
     w).

(** [WatsonxDirectAPI.__init__] *)
Definition __init__ (api_key project_id url model_id : string) : Client :=
  mkClient api_key project_id (rstrip_slash url) model_id JNull 0.

Definition IAM_URL : string := "https://iam.cloud.ibm.com/identity/token".

Definition GENERATION_PATH : string :=
  "/ml/v1-beta/generation/text?version=2023-05-29".

Definition mk_exn (c : exn_class) (msg : string) : exn := mkExn c msg None.

Section Runtime.

Variable L : Lib.
Variable E : Env.

(** [str(v)], also what an f-string puts for [{v}]. *)
Definition py_str (v : json) : string :=
  match v with
  | JStr s => s
  | _ => py_repr L v
  end.

(** [time.time()] *)
Definition time_now : Py Z :=
  fun c w => (Ok (time_time E (ticks w)), c, mkWorld (S (ticks w)) (wire w)).

(** [requests.post(...)]: the request goes on the wire; a transport fault
    is raised, an answer is returned whatever its status. *)
Definition requests_post (r : Request) : Py Response :=
  fun c w =>
    let o := network E (wire w) r in
    let w' := mkWorld (ticks w) (wire w ++ [mkExchange r o]) in
    match o with
    | Answered resp => (Ok resp, c, w')
    | Failed f msg => (Raise (mk_exn (fault_class f) msg), c, w')
    end.

Definition is_client_error (r : Response) : bool :=
  (400 <=? status_code r) && (status_code r <? 500).

Definition is_server_error (r : Response) : bool :=
  (500 <=? status_code r) && (status_code r <? 600).

Definition http_error_msg (r : Response) : string :=
  string_of_Z (status_code r)
  ++ (if is_client_error r then " Client Error: " else " Server Error: ")
  ++ reason r ++ " for url: " ++ resp_url r.

(** [response.raise_for_status()] *)
Definition raise_for_status (r : Response) : Py unit :=
  if is_client_error r || is_server_error r
  then raise (mkExn HTTPError (http_error_msg r) (Some r))
  else ret tt.

(** [response.json()]; requests (2.31 and later, as the installer asks for)
    raises its own [JSONDecodeError]. *)
Definition response_json (r : Response) : Py json :=
  match json_loads L (text r) with
  | Some v => ret v
  | None => raise (mk_exn RequestsJSONDecodeError (json_error_str L (text r)))
  end.

(** [v.get(k)] *)
Definition py_get (v : json) (k : string) : Py json :=
  match v with
  | JObj d => ret (match dict_get k d with Some x => x | None => JNull end)
  | _ => raise (mk_exn AttributeError (interp_str L AttributeError "get" v))
  end.

(** [k in v] for a text [k] *)
Definition py_in (k : string) (v : json) : Py bool :=
  match v with
  | JObj d => ret (match dict_get k d with Some _ => true | None => false end)
  | JArr l =>
      ret (existsb (fun x => match x with
                             | JStr s => String.eqb s k
                             | _ => false
                             end) l)
  | JStr s => ret (str_contains k s)
  | _ => raise (mk_exn TypeError (interp_str L TypeError "in" v))
  end.

(** [v[k]] for a text key *)
Definition py_getitem_str (v : json) (k : string) : Py json :=
  match v with
  | JObj d =>
      match dict_get k d with
      | Some x => ret x
      | None => raise (mk_exn KeyError (py_repr L (JStr k)))
      end
  | _ => raise (mk_exn TypeError (interp_str L TypeError "getitem" v))
  end.

(** [v[0]] *)
Definition py_getitem_0 (v : json) : Py json :=
  match v with
  | JArr (x :: _) => ret x
  | JArr [] => raise (mk_exn IndexError (interp_str L IndexError "getitem" v))
  | JStr (String a _) => ret (JStr (String a EmptyString))
  | JStr EmptyString =>
      raise (mk_exn IndexError (interp_str L IndexError "getitem" v))
  | JObj _ => raise (mk_exn KeyError (py_repr L (JInt 0)))
  | _ => raise (mk_exn TypeError (interp_str L TypeError "getitem" v))
  end.

(** [len(v)] *)
Definition py_len (v : json) : Py Z :=
  match v with
  | JArr l => ret (Z.of_nat (List.length l))
  | JStr s => ret (Z.of_nat (String.length s))
  | JObj d => ret (Z.of_nat (List.length d))
  | _ => raise (mk_exn TypeError (interp_str L TypeError "len" v))
  end.

(** [json.loads(s)] *)
Definition py_json_loads (s : string) : Py json :=
  match json_loads L s with
  | Some v => ret v
  | None => raise (mk_exn JSONDecodeError (json_error_str L s))
  end.

(* =================================================================== *)
(** ** [WatsonxDirectAPI] of [watsonx_direct_api.py]                    *)
(* =================================================================== *)

Definition token_request (self : Client) : Request :=
  mkRequest IAM_URL
    [("Content-Type", "application/x-www-form-urlencoded");
     ("Accept", "application/json")]
    (FormData [("grant_type", "urn:ibm:params:oauth:grant-type:apikey");
               ("apikey", api_key self)])
    30.

(** The test of line 38: [self.access_token and time.time() <
    self.token_expiry].  The clock is read only when a token is there. *)
Definition token_is_valid : Py bool :=
  self <- get_self ;;
  if truthy (access_token self)
  then (now <- time_now ;; ret (now <? token_expiry self))
  else ret false.

(** The [try] block of [_get_access_token], lines 42 to 69. *)
Definition refresh_token : Py json :=
  self <- get_self ;;
  response <- requests_post (token_request self) ;;
  raise_for_status response ;;
  token_data <- response_json response ;;
  tok <- py_get token_data "access_token" ;;
  set_access_token tok ;;
  now <- time_now ;;
  set_token_expiry (now + 3000) ;;
  self <- get_self ;;
  if negb (truthy (access_token self))
  then raise (mk_exn ValueError "No access token received from IBM IAM")
  else ret (access_token self).

(** The [except] clauses of [_get_access_token], lines 71 to 76 (the calls
    to [logging.error] leave no trace in the model). *)
Definition token_handlers (e : exn) : Py json :=
  if isinstance e RequestException
  then raise (mk_exn Exception ("Authentication failed: " ++ exc_str e))
  else if isinstance e JSONDecodeError
  then raise (mk_exn Exception "Invalid response from authentication service")
  else raise e.

Definition _get_access_token : Py json :=
  valid <- token_is_valid ;;
  if valid
  then (self <- get_self ;; ret (access_token self))
  else try_except refresh_token token_handlers.

Definition decoding_parameters (type_of_request : string) (max_tokens : Z)
    (temperature : Q) : json :=
  JObj [("decoding_method", JStr "greedy");
        ("max_new_tokens", JInt max_tokens);
        ("min_new_tokens", JInt 1);
        ("stop_sequences", JArr []);
        ("temperature",
         JFloat (if String.eqb type_of_request "classify"
                 then 1 # 10 else temperature));
        ("top_k", JInt 50);
        ("top_p", JInt 1)].

Definition generation_request (self : Client) (token : json)
    (prompt type_of_request : string) (max_tokens : Z) (temperature : Q)
    : Request :=
  mkRequest (url self ++ GENERATION_PATH)
    [("Authorization", "Bearer " ++ py_str token);
     ("Content-Type", "application/json");
     ("Accept", "application/json")]
    (JsonPayload
       (JObj [("model_id", JStr (model_id self));
              ("input", JStr prompt);
              ("parameters",
               decoding_parameters type_of_request max_tokens temperature);
              ("project_id", JStr (project_id self))]))
    60.

(** The [try] block of [generate_text], lines 93 to 133. *)
Definition generate_text_body (prompt type_of_request : string)
    (max_tokens : Z) (temperature : Q) : Py json :=
  access_token <- _get_access_token ;;
  self <- get_self ;;
  response <- requests_post
    (generation_request self access_token prompt type_of_request
       max_tokens temperature) ;;
  raise_for_status response ;;
  result <- response_json response ;;
  has_results <- py_in "results" result ;;
  nonempty <-
    (if has_results
     then (results <- py_getitem_str result "results" ;;
           n <- py_len results ;;
           ret (0 <? n))
     else ret false) ;;
  if nonempty
  then (results <- py_getitem_str result "results" ;;
        first <- py_getitem_0 results ;;
        py_getitem_str first "generated_text")
  else ret (JStr ("Error: Unexpected response format from Watsonx API: "
                  ++ py_str result)).

(** The [except HTTPError] clause, lines 135 to 143. *)
Definition http_error_text (http_err : exn) : string :=
  let error_msg := "HTTP error occurred: " ++ exc_str http_err in
  match exc_response http_err with
  | Some response =>
      match json_loads L (text response) with
      | Some error_detail => error_msg ++ " - Details: " ++ py_str error_detail
      | None => error_msg ++ " - Response: " ++ text response
      end
  | None => error_msg
  end.

(** The [except] clauses of [generate_text], lines 135 to 155, in order. *)
Definition generate_text_handlers (e : exn) : Py json :=
  self <- get_self ;;
  if isinstance e HTTPError
  then ret (JStr (http_error_text e))
  else if isinstance e ConnectionError
  then ret (JStr ("Connection error: " ++ exc_str e
                  ++ " - Check network or Watsonx URL: " ++ url self))
  else if isinstance e Timeout
  then ret (JStr ("Timeout error: " ++ exc_str e
                  ++ " - Watsonx API took too long to respond"))
  else if isinstance e JSONDecodeError
  then ret (JStr ("JSON decode error: " ++ exc_str e
                  ++ " - Could not parse Watsonx API response"))
  else if isinstance e Exception
  then ret (JStr ("Unexpected error during API call: " ++ exc_str e))
  else raise e.

Definition generate_text (prompt type_of_request : string) (max_tokens : Z)
    (temperature : Q) : Py json :=
  try_except
    (generate_text_body prompt type_of_request max_tokens temperature)
    generate_text_handlers.

(** The defaults of [generate_text]'s optional parameters. *)
Definition default_type_of_request : string := "general".
Definition default_max_tokens : Z := 1000.
Definition default_temperature : Q := 7 # 10.

Definition generate_code_prompt (requirements language : string) : string :=
  "You are an expert software developer. Generate high-quality, production-ready "
  ++ language
  ++ " code based on the following requirements.

Requirements: "
  ++ requirements
  ++ "

Please provide:
1. Clean, well-documented code
2. Proper error handling
3. Best practices implementation
4. Comments explaining key functionality

Generate only the code with appropriate comments. Do not include explanations outside the code.

Code:".

Definition generate_code (requirements language : string) : Py json :=
  generate_text (generate_code_prompt requirements language) "code"
    default_max_tokens (7 # 10).

Definition generate_tests_prompt (code framework : string) : string :=
  "You are a QA engineer. Generate comprehensive test cases using "
  ++ framework
  ++ " for the following code:

Code:
"
  ++ code
  ++ "

Generate:
1. Unit tests covering all functions
2. Edge cases and error handling tests
3. Integration tests if applicable
4. Test data and fixtures

Provide only the test code with appropriate imports and setup.

Test Code:".

Definition generate_tests (code framework : string) : Py json :=
  generate_text (generate_tests_prompt code framework) "test"
    default_max_tokens (7 # 10).

Definition fix_bugs_prompt (code error_description : string) : string :=
  "You are a senior software engineer. Fix the bugs in the following code:

Code with bugs:
"
  ++ code
  ++ "

Error/Issue description:
"
  ++ error_description
  ++ "

Provide:
1. Fixed code with corrections highlighted in comments
2. Brief explanation of what was wrong
3. Best practices to prevent similar issues

Focus on providing the corrected code with clear comments indicating fixes.

Fixed Code:".

Definition fix_bugs (code error_description : string) : Py json :=
  generate_text (fix_bugs_prompt code error_description) "fix"
    default_max_tokens (7 # 10).

Definition summarize_code_prompt (code : string) : string :=
  "You are a technical documentation expert. Analyze and summarize the following code:

Code:
"
  ++ code
  ++ "

Provide a comprehensive analysis including:
1. High-level summary of functionality
2. Key components and their purposes
3. Input/output description
4. Dependencies and requirements
5. Potential improvements or concerns

Format your response in clear sections with headings.

Analysis:".

Definition summarize_code (code : string) : Py json :=
  generate_text (summarize_code_prompt code) "summarize"
    default_max_tokens (7 # 10).

Definition classify_requirements_prompt (requirements : string) : string :=
  "You are a business analyst. Classify the following requirements into structured categories:

Requirements:
"
  ++ requirements
  ++ "

Analyze and classify into:
1. Functional Requirements
2. Non-functional Requirements
3. Technical Requirements
4. Business Requirements
5. Priority Level (High/Medium/Low)
6. Complexity Estimate (Simple/Medium/Complex)

Format the output as a valid JSON object with these exact keys:
- " ++ dq ++ "Functional Requirements" ++ dq ++ ": [list of items]
- " ++ dq ++ "Non-functional Requirements" ++ dq ++ ": [list of items]
- " ++ dq ++ "Technical Requirements" ++ dq ++ ": [list of items]
- " ++ dq ++ "Business Requirements" ++ dq ++ ": [list of items]
- " ++ dq ++ "Priority Level" ++ dq ++ ": " ++ dq ++ "High/Medium/Low" ++ dq ++ "
- " ++ dq ++ "Complexity Estimate" ++ dq ++ ": " ++ dq ++ "Simple/Medium/Complex" ++ dq ++ "

Respond with only the JSON object, no additional text.

JSON:".

Definition error_dict (error : string) (raw_response : json) : json :=
  JObj [("error", JStr error); ("raw_response", raw_response)].

(** [response.find(c)] and [response.rfind(c)] on the value that
    [generate_text] returned: only text has these methods. *)
Definition py_find (v : json) (c : ascii) : Py Z :=
  match v with
  | JStr s => ret (str_find c s)
  | _ => raise (mk_exn AttributeError (interp_str L AttributeError "find" v))
  end.

Definition py_rfind (v : json) (c : ascii) : Py Z :=
  match v with
  | JStr s => ret (str_rfind c s)
  | _ => raise (mk_exn AttributeError (interp_str L AttributeError "rfind" v))
  end.

(** The [try] statement that ends [classify_requirements], lines 307 to
    321: the classification parser. *)
Definition extract_classification (response : json) : Py json :=
  try_except
    (json_start <- py_find response "{" ;;
     json_rfind <- py_rfind response "}" ;;
     let json_end := json_rfind + 1 in
     if (0 <=? json_start) && (json_start <? json_end)
     then py_json_loads (str_slice (py_str response) json_start json_end)
     else ret (error_dict "No valid JSON found in response" response))
    (fun e =>
       if isinstance e JSONDecodeError
       then ret (error_dict "Failed to parse classification" response)
       else if isinstance e Exception
       then ret (error_dict (exc_str e) response)
       else raise e).

Definition classify_requirements (requirements : string) : Py json :=
  response <- generate_text (classify_requirements_prompt requirements)
                "classify" default_max_tokens (1 # 10) ;;
  extract_classification response.

Definition chat_prompt (context_section query : string) : string :=
  "You are a helpful AI assistant specialized in software development and programming.

"
  ++ context_section
  ++ "

User Query: "
  ++ query
  ++ "

Provide a helpful, accurate response that:
1. Directly answers the question
2. Provides code examples if relevant
3. Explains technical concepts clearly
4. Suggests best practices
5. Keeps responses concise and actionable

Response:".

Definition chat_assistant (query context : string) : Py json :=
  let context_section :=
    if truthy (JStr context) then "Context: " ++ context ++ nl
    else EmptyString in
  generate_text (chat_prompt context_section query) "chat"
    default_max_tokens (7 # 10).

(** The public surface of the class, as calls a user can make. *)
Inductive call : Type :=
| CallGetAccessToken
| CallGenerateText (prompt type_of_request : string) (max_tokens : Z)
    (temperature : Q)
| CallGenerateCode (requirements language : string)
| CallGenerateTests (code framework : string)
| CallFixBugs (code error_description : string)
| CallSummarizeCode (code : string)
| CallClassifyRequirements (requirements : string)
| CallChatAssistant (query context : string).

Definition perform (m : call) : Py json :=
  match m with
  | CallGetAccessToken => _get_access_token
  | CallGenerateText p t n temp => generate_text p t n temp
  | CallGenerateCode r l => generate_code r l
  | CallGenerateTests c f => generate_tests c f
  | CallFixBugs c d => fix_bugs c d
  | CallSummarizeCode c => summarize_code c
  | CallClassifyRequirements r => classify_requirements r
  | CallChatAssistant q ctx => chat_assistant q ctx
  end.

(** A session: calls one after the other on the same object. *)
Fixpoint session (ms : list call) (c : Client) (w : World) : Client * World :=
  match ms with
  | [] => (c, w)
  | m :: ms' =>
      let '(_, c', w') := perform m c w in
      session ms' c' w'
  end.

End Runtime.

(* ===================================================================== *)
(** ** [chat_assistant] of [watsonx_integration.py]                       *)
(* ===================================================================== *)

(** The class of that file is a copy of the direct client, line for line,
    up to this method, which builds the prompt first and assigns
    [context_section] after it, before it calls [generate_text].  Its local
    variables are modelled as a frame: a name is bound once a parameter or
    an assignment gave it a value, and reading an unbound local raises
    [UnboundLocalError]. *)
Module Integration.

Section Method.

Variable L : Lib.
Variable E : Env.

Definition frame := list (string * json).

Definition load_fast (f : frame) (name : string) : Py json :=
  match dict_get name f with
  | Some v => ret v
  | None =>
      raise (mk_exn UnboundLocalError
               (interp_str L UnboundLocalError name JNull))
  end.

Definition store_fast (f : frame) (name : string) (v : json) : frame :=
  dict_set name v f.

Definition chat_assistant (query context : string) : Py json :=
  let f0 : frame := [("query", JStr query); ("context", JStr context)] in
  (* line 443: the prompt, an f-string over context_section and query *)
  context_section <- load_fast f0 "context_section" ;;
  q <- load_fast f0 "query" ;;
  let f1 := store_fast f0 "prompt"
              (JStr (chat_prompt (py_str L context_section)
                       (py_str L q))) in
  (* line 458: context_section, from context when it is not empty *)
  cond <- load_fast f1 "context" ;;
  section_text <-
    (if truthy cond
     then (ctx <- load_fast f1 "context" ;;
           ret ("Context: " ++ py_str L ctx ++ nl))
     else ret EmptyString) ;;
  let f2 := store_fast f1 "context_section" (JStr section_text) in
  (* line 460: the call of generate_text with the prompt *)
  prompt <- load_fast f2 "prompt" ;;
  generate_text L E (py_str L prompt) "chat" default_max_tokens (7 # 10).

End Method.

End Integration.

(* ===================================================================== *)
(** ** Vocabulary of the statements                                       *)
(* ===================================================================== *)

Definition is_identity_request (r : Request) : bool :=
  String.eqb (req_url r) IAM_URL.

(** How many requests on the wire went to the identity endpoint. *)
Definition identity_posts (l : list Exchange) : nat :=
  List.length (filter (fun x => is_identity_request (sent x)) l).

(** A token is cached and its window is open at the next reading of the
    clock. *)
Definition token_cached (E : Env) (c : Client) (w : World) : Prop :=
  exists tok, access_token c = JStr tok /\ tok <> EmptyString
              /\ time_time E (ticks w) < token_expiry c.

(** The test of line 38 fails: no token is cached, or the clock, read
    because one is, shows a time at or past the expiry. *)
Definition needs_refresh (E : Env) (c : Client) (w : World) : bool :=
  negb (truthy (access_token c) && (time_time E (ticks w) <? token_expiry c)).

(** The world once that test is done: the clock was read if a token was
    there. *)
Definition after_check (c : Client) (w : World) : World :=
  if truthy (access_token c) then mkWorld (S (ticks w)) (wire w) else w.

(** The request failed at transport or HTTP level: no answer, or an answer
    with a 4xx or 5xx status. *)
Definition transport_or_http_failure (o : PostOutcome) : bool :=
  match o with
  | Failed _ _ => true
  | Answered r =>
      ((400 <=? status_code r) && (status_code r <? 500))
      || ((500 <=? status_code r) && (status_code r <? 600))
  end.

(** The [access_token] field an answer carries: [None] when the body is not
    a JSON object or has no such field. *)
Definition carried_token (L : Lib) (o : PostOutcome) : json :=
  match o with
  | Answered r =>
      match json_loads L (text r) with
      | Some (JObj d) =>
          match dict_get "access_token" d with
          | Some v => v
          | None => JNull
          end
      | _ => JNull
      end
  | Failed _ _ => JNull
  end.

(** The answer is a JSON object received with a status that is no error. *)
Definition answers_object (L : Lib) (o : PostOutcome) : bool :=
  negb (transport_or_http_failure o) &&
  match o with
  | Answered r =>
      match json_loads L (text r) with
      | Some (JObj _) => true
      | _ => false
      end
  | Failed _ _ => false
  end.


(** The exchange that a refresh adds to the wire. *)
Definition token_exchange (E : Env) (c : Client) (w : World) : Exchange :=
  mkExchange (token_request c) (network E (wire w) (token_request c)).

Definition with_token (c : Client) (tok : json) (expiry : Z) : Client :=
  mkClient (api_key c) (project_id c) (url c) (model_id c) tok expiry.

(** The exchanges that were added to the wire between two worlds. *)
Definition new_exchanges (w w' : World) : list Exchange :=
  skipn (List.length (wire w)) (wire w').

(** Among them, the requests that went to the generation endpoint. *)
Definition generation_requests (w w' : World) : list Request :=
  filter (fun r => negb (is_identity_request r))
         (map sent (new_exchanges w w')).

(** The body of a request as a dict, when it was sent with [json=]. *)
Definition json_body (r : Request) : option dict :=
  match req_body r with
  | JsonPayload (JObj d) => Some d
  | _ => None
  end.

(** The temperature among the decoding parameters of a request. *)
Definition request_temperature (r : Request) : option json :=
  match json_body r with
  | Some d =>
      match dict_get "parameters" d with
      | Some (JObj ps) => dict_get "temperature" ps
      | _ => None
      end
  | None => None
  end.




(** [i] is the first position of the character [ch] in [s]. *)
Definition first_at (ch : ascii) (s : string) (i : nat) : Prop :=
  String.get i s = Some ch
  /\ forall k, (k < i)%nat -> String.get k s <> Some ch.

(** [j] is the last position of the character [ch] in [s]. *)
Definition last_at (ch : ascii) (s : string) (j : nat) : Prop :=
  String.get j s = Some ch
  /\ forall k, (j < k)%nat -> String.get k s <> Some ch.

(* ===================================================================== *)
(** ** A concrete library and concrete environments                       *)
(* ===================================================================== *)

(** Used to run the model on examples: the decoder above, a plain rendering
    of values, and fixed message texts. *)
Fixpoint sample_repr (v : json) : string :=
  match v with
  | JNull => "None"
  | JBool true => "True"
  | JBool false => "False"
  | JInt z => string_of_Z z
  | JFloat q => string_of_Z (Qnum q) ++ "/" ++ string_of_Z (Zpos (Qden q))
  | JStr s => "'" ++ s ++ "'"
  | JArr l =>
      "["
      ++ (fix items (l : list json) : string :=
            match l with
            | [] => EmptyString
            | x :: r =>
                sample_repr x
                ++ match r with [] => EmptyString | _ => ", " ++ items r end
            end) l
      ++ "]"
  | JObj d =>
      "{"
      ++ (fix items (d : list (string * json)) : string :=
            match d with
            | [] => EmptyString
            | (k, x) :: r =>
                "'" ++ k ++ "': " ++ sample_repr x
                ++ match r with [] => EmptyString | _ => ", " ++ items r end
            end) d
      ++ "}"
  | JNonFinite NaN => "nan"
  | JNonFinite PosInfinity => "inf"
  | JNonFinite NegInfinity => "-inf"
  end.

Definition sample_lib : Lib :=
  mkLib sample_repr JSONDecoder.loads
        (fun _ => "Expecting value")
        (fun _ operation _ => operation).

(** The clock starts at [t0] and advances one second per reading; the
    identity endpoint always meets [identity], the generation endpoint
    always [generation]. *)
Definition scripted_env (t0 : Z) (identity generation : PostOutcome) : Env :=
  mkEnv (fun n => t0 + Z.of_nat n)
        (fun _ r => if is_identity_request r then identity else generation).

Definition quoted (s : string) : string := dq ++ s ++ dq.

Definition ok_response (body : string) : PostOutcome :=
  Answered (mkResponse 200 "OK" "https://endpoint.example" body).

(** The identity endpoint grants [tok] for an hour. *)
Definition token_grant (tok : string) : PostOutcome :=
  ok_response ("{" ++ quoted "access_token" ++ ": " ++ quoted tok ++ ", "
               ++ quoted "expires_in" ++ ": 3600}").

(** The generation endpoint answers with one result whose text is given
    already escaped for JSON. *)
Definition generated (escaped_text : string) : PostOutcome :=
  ok_response ("{" ++ quoted "results" ++ ": [{" ++ quoted "generated_text"
               ++ ": " ++ quoted escaped_text ++ "}]}").

Definition server_error (body : string) : PostOutcome :=
  Answered (mkResponse 500 "Internal Server Error"
              "https://endpoint.example" body).

Definition sample_client : Client :=
  __init__ "key" "project-1" "https://eu-de.ml.cloud.ibm.com/" "ibm/granite".

Definition fresh_world : World := mkWorld 0 [].

(** The model text of the classification example, and the same text escaped
    inside a JSON string. *)
Definition noisy_text : string :=
  "noise {" ++ quoted "Priority Level" ++ ": " ++ quoted "High" ++ "} noise".

Definition noisy_text_escaped : string :=
  "noise {\" ++ dq ++ "Priority Level\" ++ dq ++ ": \" ++ dq ++ "High\" ++ dq
  ++ "} noise".

(* ===================================================================== *)
(** ** [str.format] with keyword arguments                                *)
(* ===================================================================== *)

(** What the facade needs beyond [Lib]: the parts of [str.format] that are
    resolved by the interpreter, the LangChain chain, and [str.strip]. *)
Record FacadeLib : Type := mkFacadeLib {
  (** the rendering of a template from a replacement field on, when that
      field has a conversion, a format specification, an attribute or an
      index; the argument is the template from the opening brace of the
      field *)
  format_complex : string -> list (string * string) -> outcome string;
  (** [chain.invoke(input_vars)] for the chain built from a template; the
      world stands for all that the hosted model may depend on *)
  chain_invoke : World -> string -> list (string * string) -> outcome string;
  (** [s.strip()] *)
  py_strip : string -> string
}.

Definition emit (c : ascii) (r : outcome string) : outcome string :=
  match r with
  | Ok s => Ok (String c s)
  | Raise e => Raise e
  end.

Definition splice (v : string) (r : outcome string) : outcome string :=
  match r with
  | Ok s => Ok (v ++ s)
  | Raise e => Raise e
  end.

Fixpoint kwargs_get (k : string) (kw : list (string * string)) : option string :=
  match kw with
  | [] => None
  | (k', v) :: kw' => if String.eqb k k' then Some v else kwargs_get k kw'
  end.

Fixpoint all_digits (s : string) : bool :=
  match s with
  | EmptyString => true
  | String c s' => JSONDecoder.is_digit c && all_digits s'
  end.

(** The value for a plain field name: an empty or numeric name asks for a
    positional argument, and there is none; any other name is a keyword. *)
Definition resolve_field (L : Lib) (name : string)
    (kw : list (string * string)) : outcome string :=
  if all_digits name
  then Raise (mk_exn IndexError (interp_str L IndexError "format" (JStr name)))
  else match kwargs_get name kw with
       | Some v => Ok v
       | None => Raise (mk_exn KeyError (py_repr L (JStr name)))
       end.

(** [template.format( **kw )] for text values, scanned left to right as
    the interpreter does: literal text, doubled braces, and replacement
    fields.  [field] is [None] in literal text and holds the name read so
    far inside a field. *)
Fixpoint format_from (L : Lib) (F : FacadeLib) (kw : list (string * string))
    (t : string) (field : option string) : outcome string :=
  match t with
  | EmptyString =>
      match field with
      | None => Ok EmptyString
      | Some _ =>
          Raise (mk_exn ValueError "expected '}' before end of string")
      end
  | String c t' =>
      match field with
      | None =>
          if Ascii.eqb c "{" then
            match t' with
            | EmptyString =>
                Raise (mk_exn ValueError
                         "Single '{' encountered in format string")
            | String c2 t'' =>
                if Ascii.eqb c2 "{" then emit "{" (format_from L F kw t'' None)
                else format_from L F kw t' (Some EmptyString)
            end
          else if Ascii.eqb c "}" then
            match t' with
            | String c2 t'' =>
                if Ascii.eqb c2 "}" then emit "}" (format_from L F kw t'' None)
                else Raise (mk_exn ValueError
                              "Single '}' encountered in format string")
            | EmptyString =>
                Raise (mk_exn ValueError
                         "Single '}' encountered in format string")
            end
          else emit c (format_from L F kw t' None)
      | Some name =>
          if Ascii.eqb c "}" then
            match resolve_field L name kw with
            | Ok v => splice v (format_from L F kw t' None)
            | Raise e => Raise e
            end
          else if Ascii.eqb c "{" then
            Raise (mk_exn ValueError "unexpected '{' in field name")
          else if Ascii.eqb c ":" || Ascii.eqb c "!" || Ascii.eqb c "."
                  || Ascii.eqb c "[" then
            format_complex F ("{" ++ name ++ t) kw
          else format_from L F kw t' (Some (name ++ String c EmptyString))
      end
  end.

Definition py_format (L : Lib) (F : FacadeLib) (template : string)
    (kw : list (string * string)) : outcome string :=
  format_from L F kw template None.

(** An outcome computed without the object or the world, inside a method. *)
Definition lift {A} (o : outcome A) : Py A := fun c w => (o, c, w).

(* ===================================================================== *)
(** ** The facade [WatsonxAI] of [streamlit_app.py]                       *)
(* ===================================================================== *)

(** The facade holds a flag and, when the flag is set, a direct client:
    that client is the object of the method monad.  Its templates are the
    texts of the direct client with replacement fields for [str.format]. *)
Module WatsonxAI.

Section Methods.

Variable L : Lib.
Variable E : Env.
Variable F : FacadeLib.

(** The flag as [__init__] sets it: asked for, and the direct client could
    be imported. *)
Definition init_use_direct_api (use_direct_api direct_api_available : bool)
    : bool :=
  use_direct_api && direct_api_available.

(** [_call_watsonx_with_prompt], lines 148 to 162 (the call of
    [logging.exception] leaves no trace in the model). *)
Definition _call_watsonx_with_prompt (use_direct_api : bool)
    (template : string) (input_vars : list (string * string)) : Py json :=
  try_except
    (if use_direct_api
     then (prompt <- lift (py_format L F template input_vars) ;;
           generate_text L E prompt default_type_of_request
             default_max_tokens default_temperature)
     else (fun c w =>
             match chain_invoke F w template input_vars with
             | Ok result => (Ok (JStr (py_strip F result)), c, w)
             | Raise e => (Raise e, c, w)
             end))
    (fun e =>
       if isinstance e Exception
       then ret (JStr ("⚠️ Error generating response: " ++ exc_str e))
       else raise e).

Definition generate_code_template : string :=
  "You are an expert software developer. Generate high-quality, production-ready {language} code based on the following requirements.

Requirements: {requirements}

Please provide:
1. Clean, well-documented code
2. Proper error handling
3. Best practices implementation
4. Comments explaining key functionality

Generate only the code with appropriate comments. Do not include explanations outside the code.

Code:".

Definition generate_tests_template : string :=
  "You are a QA engineer. Generate comprehensive test cases using {framework} for the following code:

Code:
{code}

Generate:
1. Unit tests covering all functions
2. Edge cases and error handling tests
3. Integration tests if applicable
4. Test data and fixtures

Provide only the test code with appropriate imports and setup.

Test Code:".

Definition fix_bugs_template : string :=
  "You are a senior software engineer. Fix the bugs in the following code:

Code with bugs:
{code}

Error/Issue description:
{error_description}

Provide:
1. Fixed code with corrections highlighted in comments
2. Brief explanation of what was wrong
3. Best practices to prevent similar issues

Focus on providing the corrected code with clear comments indicating fixes.

Fixed Code:".

Definition summarize_code_template : string :=
  "You are a technical documentation expert. Analyze and summarize the following code:

Code:
{code}

Provide a comprehensive analysis including:
1. High-level summary of functionality
2. Key components and their purposes
3. Input/output description
4. Dependencies and requirements
5. Potential improvements or concerns

Format your response in clear sections with headings.

Analysis:".

Definition classify_requirements_template : string :=
  "You are a business analyst. Classify the following requirements into structured categories:

Requirements:
{requirements}

Analyze and classify into:
1. Functional Requirements
2. Non-functional Requirements
3. Technical Requirements
4. Business Requirements
5. Priority Level (High/Medium/Low)
6. Complexity Estimate (Simple/Medium/Complex)

Format the output as a valid JSON object with these exact keys:
- "
  ++ dq
  ++ "Functional Requirements"
  ++ dq
  ++ ": [list of items]
- "
  ++ dq
  ++ "Non-functional Requirements"
  ++ dq
  ++ ": [list of items]
- "
  ++ dq
  ++ "Technical Requirements"
  ++ dq
  ++ ": [list of items]
- "
  ++ dq
  ++ "Business Requirements"
  ++ dq
  ++ ": [list of items]
- "
  ++ dq
  ++ "Priority Level"
  ++ dq
  ++ ": "
  ++ dq
  ++ "High/Medium/Low"
  ++ dq
  ++ "
- "
  ++ dq
  ++ "Complexity Estimate"
  ++ dq
  ++ ": "
  ++ dq
  ++ "Simple/Medium/Complex"
  ++ dq
  ++ "

Respond with only the JSON object, no additional text.

JSON:".

Definition chat_assistant_template : string :=
  "You are a helpful AI assistant specialized in software development and programming.

{context_section}

User Query: {query}

Provide a helpful, accurate response that:
1. Directly answers the question
2. Provides code examples if relevant
3. Explains technical concepts clearly
4. Suggests best practices
5. Keeps responses concise and actionable

Response:".

Definition generate_code (use_direct_api : bool)
    (requirements language : string) : Py json :=
  _call_watsonx_with_prompt use_direct_api generate_code_template
    [("requirements", requirements); ("language", language)].

Definition generate_tests (use_direct_api : bool) (code framework : string)
    : Py json :=
  _call_watsonx_with_prompt use_direct_api generate_tests_template
    [("code", code); ("framework", framework)].

Definition fix_bugs (use_direct_api : bool) (code error_description : string)
    : Py json :=
  _call_watsonx_with_prompt use_direct_api fix_bugs_template
    [("code", code); ("error_description", error_description)].

Definition summarize_code (use_direct_api : bool) (code : string) : Py json :=
  _call_watsonx_with_prompt use_direct_api summarize_code_template
    [("code", code)].

(** The parser that ends the method is the one of the direct client, with
    [st.error] in the place of [logging.error]. *)
Definition classify_requirements (use_direct_api : bool)
    (requirements : string) : Py json :=
  response <- _call_watsonx_with_prompt use_direct_api
                classify_requirements_template
                [("requirements", requirements)] ;;
  extract_classification L response.

Definition chat_assistant (use_direct_api : bool) (query context : string)
    : Py json :=
  let context_section :=
    if truthy (JStr context) then "Context: " ++ context ++ nl
    else EmptyString in
  _call_watsonx_with_prompt use_direct_api chat_assistant_template
    [("context_section", context_section); ("query", query)].

End Methods.

End WatsonxAI.

(* ===================================================================== *)
(** ** The chat pages                                                     *)
(* ===================================================================== *)

(** [sep.join(l)] *)
Fixpoint join (sep : string) (l : list string) : string :=
  match l with
  | [] => EmptyString
  | x :: r =>
      match r with
      | [] => x
      | _ => x ++ sep ++ join sep r
      end
  end.

(** [l[-n:]] for a positive [n]: the last [n] elements, or all of them. *)
Definition lastn {A} (n : nat) (l : list A) : list A :=
  skipn (List.length l - n) l.

(** The chat of [watsonx_integration.py]: messages are pairs of a speaker
    and a text. *)
Module IntegrationChat.

Definition history_line (m : string * string) : string :=
  let '(speaker, text) := m in
  (if String.eqb speaker "user" then "User" else "AI") ++ ": " ++ text.

(** [format_history], lines 51 to 59 *)
Definition format_history (messages : list (string * string)) : string :=
  join nl (map history_line (removelast messages)).

Definition chat_template : string :=
  "You are a smart and friendly AI assistant.

Conversation so far:
{history}

User: {input}
AI:".

(** The history that [get_ai_reply] hands to the chain, line 77. *)
Definition reply_history (session_messages : list (string * string))
    (current_input : string) : string :=
  format_history (session_messages ++ [("user", current_input)])%list.

(** [get_ai_reply], lines 61 to 85, on the messages of the session.  The
    chain is built on lines 73 and 74, before the [try] of line 76 is
    entered: [build_chain] stands for these two library calls on the
    template and gives the exception they raise, if they raise one, which
    then leaves the function.  Only what is raised from line 77 on meets
    the handler of line 83. *)
Definition get_ai_reply (F : FacadeLib) (build_chain : string -> option exn)
    (w : World) (session_messages : list (string * string))
    (current_input : string) : outcome string :=
  match build_chain chat_template with
  | Some e => Raise e
  | None =>
      match chain_invoke F w chat_template
              [("history", reply_history session_messages current_input);
               ("input", current_input)] with
      | Ok result => Ok (py_strip F result)
      | Raise e =>
          if isinstance e Exception
          then Ok ("⚠️ Error: " ++ exc_str e)
          else Raise e
      end
  end.

(** One turn of the page, lines 105 to 114, the body run for an input that
    counts as true: the input joins the session, the reply is asked for,
    and joins the session too.  The result is the reply, or the exception
    that left [get_ai_reply], together with the messages of the session
    afterwards: the list is changed in place, so the input stays in it when
    the reply raised. *)
Definition chat_turn (F : FacadeLib) (build_chain : string -> option exn)
    (w : World) (session_messages : list (string * string))
    (user_prompt : string) : outcome string * list (string * string) :=
  let messages := (session_messages ++ [("user", user_prompt)])%list in
  match get_ai_reply F build_chain w messages user_prompt with
  | Ok response => (Ok response, (messages ++ [("assistant", response)])%list)
  | Raise e => (Raise e, messages)
  end.

End IntegrationChat.

(** The chat page of [streamlit_app.py]. *)
Module ChatPage.

Definition context_line (m : string * string) : string :=
  let '(speaker, msg) := m in speaker ++ ": " ++ msg.

(** The context of lines 758 to 761, from the messages of the session once
    the input of the user has joined them. *)
Definition chat_context (chat_messages : list (string * string)) : string :=
  if (1 <? List.length chat_messages)%nat
  then join nl (map context_line (removelast (lastn 6 chat_messages)))
  else EmptyString.

End ChatPage.

(* ===================================================================== *)
(** ** Vocabulary of the further statements                               *)
(* ===================================================================== *)

(** [n] slashes. *)
Fixpoint slashes (n : nat) : string :=
  match n with
  | O => EmptyString
  | S n' => String "/" (slashes n')
  end.

(** The [input] field of the body of a request. *)
Definition request_input (r : Request) : option string :=
  match json_body r with
  | Some d =>
      match dict_get "input" d with
      | Some (JStr s) => Some s
      | _ => None
      end
  | None => None
  end.

(** The texts that the caller hands to a public call. *)
Definition call_texts (m : call) : list string :=
  match m with
  | CallGetAccessToken => []
  | CallGenerateText prompt _ _ _ => [prompt]
  | CallGenerateCode requirements language => [requirements; language]
  | CallGenerateTests code framework => [code; framework]
  | CallFixBugs code error_description => [code; error_description]
  | CallSummarizeCode code => [code]
  | CallClassifyRequirements requirements => [requirements]
  | CallChatAssistant query context => [query; context]
  end.

(** Which requests a call put on the wire, by endpoint: [true] for the
    identity endpoint. *)
Definition endpoints_called (w w' : World) : list bool :=
  map (fun x => is_identity_request (sent x)) (new_exchanges w w').

(** The operations of the facade, and how each is performed. *)
Inductive operation : Type :=
| OpGenerateCode (requirements language : string)
| OpGenerateTests (code framework : string)
| OpFixBugs (code error_description : string)
| OpSummarizeCode (code : string)
| OpClassifyRequirements (requirements : string)
| OpChatAssistant (query context : string).

Definition facade_perform (L : Lib) (E : Env) (F : FacadeLib)
    (use_direct_api : bool) (op : operation) : Py json :=
  match op with
  | OpGenerateCode r l => WatsonxAI.generate_code L E F use_direct_api r l
  | OpGenerateTests c f => WatsonxAI.generate_tests L E F use_direct_api c f
  | OpFixBugs c d => WatsonxAI.fix_bugs L E F use_direct_api c d
  | OpSummarizeCode c => WatsonxAI.summarize_code L E F use_direct_api c
  | OpClassifyRequirements r =>
      WatsonxAI.classify_requirements L E F use_direct_api r
  | OpChatAssistant q ctx => WatsonxAI.chat_assistant L E F use_direct_api q ctx
  end.

(** The same operation on the direct client itself. *)
Definition direct_call (op : operation) : call :=
  match op with
  | OpGenerateCode r l => CallGenerateCode r l
  | OpGenerateTests c f => CallGenerateTests c f
  | OpFixBugs c d => CallFixBugs c d
  | OpSummarizeCode c => CallSummarizeCode c
  | OpClassifyRequirements r => CallClassifyRequirements r
  | OpChatAssistant q ctx => CallChatAssistant q ctx
  end.




(* ===================================================================== *)
(** ** Basic facts                                                        *)
(* ===================================================================== *)

Lemma length_append (a b : string) :
  String.length (a ++ b) = (String.length a + String.length b)%nat.
Proof. induction a as [|x a IH]; simpl; [reflexivity | now rewrite IH]. Qed.

Lemma append_assoc (a b c : string) : (a ++ b) ++ c = a ++ (b ++ c).
Proof. induction a as [|x a IH]; simpl; [reflexivity | now rewrite IH]. Qed.

Lemma generation_url_not_identity (u : string) :
  String.eqb (u ++ GENERATION_PATH) IAM_URL = false.
Proof.
  apply String.eqb_neq. intro H.
  apply (f_equal String.length) in H. rewrite length_append in H.
  vm_compute (String.length GENERATION_PATH) in H.
  vm_compute (String.length IAM_URL) in H. lia.
Qed.

Lemma identity_posts_app (l1 l2 : list Exchange) :
  identity_posts (l1 ++ l2) = (identity_posts l1 + identity_posts l2)%nat.
Proof. unfold identity_posts. now rewrite filter_app, length_app. Qed.

Lemma truthy_nonempty (s : string) : s <> EmptyString -> truthy (JStr s) = true.
Proof.
  intro H. simpl. destruct (String.eqb_spec s EmptyString); [contradiction | reflexivity].
Qed.

Section Facts.

Variable L : Lib.
Variable E : Env.

Ltac py_unfold :=
  unfold _get_access_token, token_is_valid, refresh_token, token_handlers,
    try_except, requests_post, raise_for_status, response_json, py_get,
    set_access_token, set_token_expiry, time_now, get_self, bind, ret, raise.

(** The handlers of [generate_text] turn every exception into a text and
    touch neither the object nor the world. *)
Lemma generate_text_handlers_total (e : exn) (c : Client) (w : World) :
  exists s, generate_text_handlers L e c w = (Ok (JStr s), c, w).
Proof.
  unfold generate_text_handlers, bind, get_self, ret, raise.
  destruct (isinstance e HTTPError); [eauto |].
  destruct (isinstance e ConnectionError); [eauto |].
  destruct (isinstance e Timeout); [eauto |].
  destruct (isinstance e JSONDecodeError); [eauto |].
  assert (H : isinstance e Exception = true)
    by (unfold isinstance; destruct (exc_class e); reflexivity).
  rewrite H. eauto.
Qed.

(** The cached branch of [_get_access_token]. *)
Lemma get_access_token_cached (c : Client) (w : World) :
  truthy (access_token c) = true ->
  time_time E (ticks w) < token_expiry c ->
  _get_access_token L E c w
  = (Ok (access_token c), c, mkWorld (S (ticks w)) (wire w)).
Proof.
  intros Ht Hlt. py_unfold. rewrite Ht. simpl.
  destruct (Z.ltb_spec (time_time E (ticks w)) (token_expiry c)); [reflexivity | lia].
Qed.

Lemma get_access_token_refresh (c : Client) (w : World) :
  needs_refresh E c w = true ->
  _get_access_token L E c w
  = try_except (refresh_token L E) token_handlers c (after_check c w).
Proof.
  unfold needs_refresh, after_check, _get_access_token, token_is_valid,
    bind, get_self, time_now, ret.
  destruct (truthy (access_token c)); simpl; [| reflexivity].
  intro H. apply negb_true_iff in H. rewrite H. reflexivity.
Qed.

(** A refresh always puts exactly one request on the wire, the token
    request, and never turns the clock back. *)
Lemma refresh_wire (c : Client) (w : World) :
  let '(_, _, w') := try_except (refresh_token L E) token_handlers c w in
  wire w' = (wire w ++ [token_exchange E c w])%list.
Proof.
  py_unfold. unfold token_exchange.
  destruct (network E (wire w) (token_request c)) as [r | f msg]; simpl.
  - destruct (is_client_error r || is_server_error r); simpl.
    + reflexivity.
    + destruct (json_loads L (text r)) as [v |]; simpl; [| reflexivity].
      destruct v; simpl; try reflexivity.
      match goal with |- context [negb ?b] => destruct b end; reflexivity.
  - destruct f; reflexivity.
Qed.

(** The refresh when the answer is a JSON object: the field is stored,
    the expiry set from the clock, and the token returned if there is
    one. *)
Lemma refresh_object (c : Client) (w : World) :
  answers_object L (network E (wire w) (token_request c)) = true ->
  let tok := carried_token L (network E (wire w) (token_request c)) in
  try_except (refresh_token L E) token_handlers c w
  = (if truthy tok then Ok tok
     else Raise (mk_exn ValueError "No access token received from IBM IAM"),
     with_token c tok (time_time E (ticks w) + 3000),
     mkWorld (S (ticks w)) (wire w ++ [token_exchange E c w])).
Proof.
  py_unfold. unfold token_exchange, answers_object, carried_token,
    transport_or_http_failure, is_client_error, is_server_error.
  destruct (network E (wire w) (token_request c)) as [r | f msg]; simpl;
    [| discriminate].
  destruct ((400 <=? status_code r) && (status_code r <? 500)
            || (500 <=? status_code r) && (status_code r <? 600)); simpl;
    [discriminate |].
  destruct (json_loads L (text r)) as [v |]; simpl; [| discriminate].
  destruct v; simpl; try discriminate. intros _.
  destruct (dict_get "access_token" d) as [v |]; simpl.
  - destruct (truthy v); reflexivity.
  - reflexivity.
Qed.

(** The refresh when the answer is anything else: an exception, and the
    object as it was. *)
Lemma refresh_no_object (c : Client) (w : World) :
  answers_object L (network E (wire w) (token_request c)) = false ->
  exists e,
    try_except (refresh_token L E) token_handlers c w
    = (Raise e, c, mkWorld (ticks w) (wire w ++ [token_exchange E c w])).
Proof.
  py_unfold. unfold token_exchange, answers_object,
    transport_or_http_failure, is_client_error, is_server_error.
  destruct (network E (wire w) (token_request c)) as [r | f msg]; simpl.
  - destruct ((400 <=? status_code r) && (status_code r <? 500)
              || (500 <=? status_code r) && (status_code r <? 600)); simpl.
    + eauto.
    + destruct (json_loads L (text r)) as [v |]; simpl; [| eauto].
      destruct v; simpl; try discriminate; eauto.
  - destruct f; simpl; eauto.
Qed.

(** Closes a leaf of [generate_text]: a value returned by the body, or an
    exception that the handlers turn into a text. *)
Ltac handled :=
  match goal with
  | |- exists v, generate_text_handlers _ ?e ?c ?w = _ =>
      let s := fresh "s" in
      let Hs := fresh "Hs" in
      destruct (generate_text_handlers_total e c w) as [s Hs];
      rewrite Hs; eexists; reflexivity
  | |- exists v, (Ok _, _, _) = _ => eexists; reflexivity
  end.

(** [generate_text] asks for a token, and if it gets one sends exactly one
    request, the generation request built from its arguments; whatever
    happens it returns a value, and the object is as [_get_access_token]
    left it. *)
Lemma generate_text_run (prompt ty : string) (n : Z) (temp : Q)
    (c : Client) (w : World) :
  exists v,
    generate_text L E prompt ty n temp c w
    = (Ok v,
       snd (fst (_get_access_token L E c w)),
       match _get_access_token L E c w with
       | (Ok tok, c1, w1) =>
           let req := generation_request L c1 tok prompt ty n temp in
           mkWorld (ticks w1)
                   (wire w1 ++ [mkExchange req (network E (wire w1) req)])
       | (Raise _, _, w1) => w1
       end).
Proof.
  unfold generate_text, try_except, generate_text_body, bind.
  destruct (_get_access_token L E c w) as [[ot c1] w1].
  destruct ot as [tok | e]; simpl; [| handled].
  unfold get_self, requests_post.
  set (req := generation_request L c1 tok prompt ty n temp).
  destruct (network E (wire w1) req) as [r | f msg]; simpl; [| handled].
  unfold raise_for_status, raise, ret.
  destruct (is_client_error r || is_server_error r); simpl; [handled |].
  unfold response_json, raise, ret.
  destruct (json_loads L (text r)) as [result |]; simpl; [| handled].
  destruct result as [| b | z | q | s | l | d | nf]; simpl; try handled.
  - (* a text *)
    destruct (str_contains "results" s); simpl; handled.
  - (* a list *)
    match goal with |- context [existsb ?f l] => destruct (existsb f l) end;
      simpl; handled.
  - (* an object *)
    destruct (dict_get "results" d) as [results |]; simpl; [| handled].
    destruct results as [| b | z | q | s | l | d' | nf]; simpl; try handled.
    + destruct (0 <? Z.of_nat (String.length s)); simpl; [| handled].
      destruct s; simpl; handled.
    + destruct (0 <? Z.of_nat (List.length l)); simpl; [| handled].
      destruct l as [| first l']; simpl; [handled |].
      destruct first as [| b | z | q | s | l0 | d0 | nf]; simpl; try handled.
      destruct (dict_get "generated_text" d0); simpl; handled.
    + destruct (0 <? Z.of_nat (List.length d')); simpl; handled.
Qed.

Lemma wire_after_check (c : Client) (w : World) :
  wire (after_check c w) = wire w.
Proof. unfold after_check. destruct (truthy (access_token c)); reflexivity. Qed.

(** What [_get_access_token] does, in full: the cached branch, the refresh
    that meets no JSON object, and the refresh that meets one. *)
Lemma get_access_token_effect (c : Client) (w : World) :
  let o := network E (wire w) (token_request c) in
  let now := time_time E (ticks (after_check c w)) in
  let '(res, c', w') := _get_access_token L E c w in
  (needs_refresh E c w = false
   /\ res = Ok (access_token c) /\ c' = c /\ wire w' = wire w)
  \/ (needs_refresh E c w = true /\ answers_object L o = false
      /\ (exists e, res = Raise e) /\ c' = c
      /\ wire w' = (wire w ++ [token_exchange E c w])%list)
  \/ (needs_refresh E c w = true /\ answers_object L o = true
      /\ res = (if truthy (carried_token L o) then Ok (carried_token L o)
                else Raise (mk_exn ValueError
                              "No access token received from IBM IAM"))
      /\ c' = with_token c (carried_token L o) (now + 3000)
      /\ wire w' = (wire w ++ [token_exchange E c w])%list).
Proof.
  cbv zeta.
  destruct (needs_refresh E c w) eqn:Hn.
  - rewrite (get_access_token_refresh c w Hn).
    pose proof (wire_after_check c w) as Hw.
    destruct (answers_object L (network E (wire w) (token_request c))) eqn:Ha.
    + pose proof (refresh_object c (after_check c w)) as H.
      rewrite Hw in H. specialize (H Ha). cbv zeta in H. rewrite H.
      right. right. unfold token_exchange. simpl. rewrite Hw. auto.
    + pose proof (refresh_no_object c (after_check c w)) as H.
      rewrite Hw in H. destruct (H Ha) as [e He]. rewrite He.
      right. left. unfold token_exchange. simpl. rewrite Hw.
      repeat split; eauto.
  - unfold needs_refresh in Hn. apply negb_false_iff in Hn.
    apply andb_true_iff in Hn. destruct Hn as [Ht Hlt].
    apply Z.ltb_lt in Hlt.
    rewrite (get_access_token_cached c w Ht Hlt). left. auto.
Qed.

Lemma identity_posts_token_exchange (c : Client) (w : World) :
  identity_posts [token_exchange E c w] = 1%nat.
Proof. reflexivity. Qed.

Lemma identity_posts_generation (c : Client) (tok : json)
    (prompt ty : string) (n : Z) (temp : Q) (o : PostOutcome) :
  identity_posts [mkExchange (generation_request L c tok prompt ty n temp) o]
  = 0%nat.
Proof.
  unfold identity_posts, is_identity_request. simpl.
  now rewrite generation_url_not_identity.
Qed.

(** [generate_text] adds to the identity requests what its one call of
    [_get_access_token] adds, and changes the object as that call does. *)
Lemma generate_text_token_effect (prompt ty : string) (n : Z) (temp : Q)
    (c : Client) (w : World) :
  let '(_, c', w') := generate_text L E prompt ty n temp c w in
  let '(_, c1, w1) := _get_access_token L E c w in
  c' = c1 /\ identity_posts (wire w') = identity_posts (wire w1).
Proof.
  destruct (generate_text_run prompt ty n temp c w) as [v Hv]. rewrite Hv.
  destruct (_get_access_token L E c w) as [[ot c1] w1]. simpl.
  split; [reflexivity |].
  destruct ot as [tok | e]; simpl; [| reflexivity].
  rewrite identity_posts_app, identity_posts_generation. lia.
Qed.

Lemma token_cached_fresh (c : Client) (w : World) :
  token_cached E c w ->
  truthy (access_token c) = true /\ time_time E (ticks w) < token_expiry c.
Proof.
  intros (tok & Htok & Hne & Hlt). rewrite Htok.
  split; [now apply truthy_nonempty | exact Hlt].
Qed.

(** C1 (token reuse).  In a state where [access_token] is a non-empty text
    and the clock shows a time strictly before [token_expiry],
    [_get_access_token] returns the cached token, the wire is as it was (no
    request at all) and the object is unchanged; [generate_text] in such a
    state sends no request to the identity endpoint and leaves both fields
    alone.  Hence for two calls of [generate_text] in a row, the second
    starting inside the window: the second sends no identity request, and
    both together send at most one. *)
Theorem token_reuse :
  (forall c w,
      token_cached E c w ->
      _get_access_token L E c w
      = (Ok (access_token c), c, mkWorld (S (ticks w)) (wire w))
      /\ forall prompt ty n temp,
          let '(_, c', w') := generate_text L E prompt ty n temp c w in
          identity_posts (wire w') = identity_posts (wire w)
          /\ access_token c' = access_token c
          /\ token_expiry c' = token_expiry c)
  /\ (forall c0 w0 p1 ty1 n1 t1 p2 ty2 n2 t2,
         let '(_, c1, w1) := generate_text L E p1 ty1 n1 t1 c0 w0 in
         let '(_, _, w2) := generate_text L E p2 ty2 n2 t2 c1 w1 in
         token_cached E c1 w1 ->
         identity_posts (wire w2) = identity_posts (wire w1)
         /\ (identity_posts (wire w2) <= identity_posts (wire w0) + 1)%nat).
Proof.
  assert (Hone : forall c w,
             token_cached E c w ->
             _get_access_token L E c w
             = (Ok (access_token c), c, mkWorld (S (ticks w)) (wire w))).
  { intros c w Hc. destruct (token_cached_fresh c w Hc) as [Ht Hlt].
    now apply get_access_token_cached. }
  assert (Hgen : forall c w prompt ty n temp,
             token_cached E c w ->
             let '(_, c', w') := generate_text L E prompt ty n temp c w in
             identity_posts (wire w') = identity_posts (wire w) /\ c' = c).
  { intros c w prompt ty n temp Hc.
    pose proof (generate_text_token_effect prompt ty n temp c w) as H.
    destruct (generate_text L E prompt ty n temp c w) as [[o c'] w'].
    rewrite (Hone c w Hc) in H. destruct H as [-> H]. simpl in H. auto. }
  split.
  - intros c w Hc. split; [now apply Hone |].
    intros prompt ty n temp. specialize (Hgen c w prompt ty n temp Hc).
    destruct (generate_text L E prompt ty n temp c w) as [[o c'] w'].
    destruct Hgen as [H ->]. auto.
  - intros c0 w0 p1 ty1 n1 t1 p2 ty2 n2 t2.
    pose proof (generate_text_token_effect p1 ty1 n1 t1 c0 w0) as H1.
    pose proof (get_access_token_effect c0 w0) as H0.
    destruct (generate_text L E p1 ty1 n1 t1 c0 w0) as [[o1 c1] w1].
    destruct (_get_access_token L E c0 w0) as [[ot ct] wt].
    destruct H1 as [_ H1].
    pose proof (Hgen c1 w1 p2 ty2 n2 t2) as H2.
    destruct (generate_text L E p2 ty2 n2 t2 c1 w1) as [[o2 c2] w2].
    intro Hc. destruct (H2 Hc) as [H2' _]. split; [exact H2' |].
    rewrite H2', H1.
    cbv zeta in H0.
    destruct H0 as [(_ & _ & _ & Hw) | [(_ & _ & _ & _ & Hw) | (_ & _ & _ & _ & Hw)]];
      rewrite Hw;
      try rewrite identity_posts_app, identity_posts_token_exchange; lia.
Qed.

End Facts.

Lemma needs_refresh_spec (E : Env) (c : Client) (w : World) :
  needs_refresh E c w = true
  <-> truthy (access_token c) = false
      \/ token_expiry c <= time_time E (ticks w).
Proof.
  unfold needs_refresh. rewrite negb_true_iff, andb_false_iff, Z.ltb_ge.
  reflexivity.
Qed.

(** C2 (token refresh).  In a state where no token is cached or the clock
    shows a time at or past [token_expiry], [_get_access_token] puts exactly
    one request on the wire, a POST to the identity endpoint.  When that
    request is answered by a JSON object, [access_token] becomes the
    [access_token] field of the answer (whatever was cached is gone) and
    [token_expiry] becomes the time the clock shows right after the answer,
    plus 3000; no other field of the answer enters: in any environment with
    the same clock the new expiry is the same. *)
Theorem token_refresh (L : Lib) (E : Env) (c : Client) (w : World) :
  truthy (access_token c) = false
  \/ token_expiry c <= time_time E (ticks w) ->
  let o := network E (wire w) (token_request c) in
  let now := time_time E (ticks (after_check c w)) in
  let '(_, c', w') := _get_access_token L E c w in
  wire w' = (wire w ++ [mkExchange (token_request c) o])%list
  /\ req_url (token_request c) = IAM_URL
  /\ identity_posts (wire w') = S (identity_posts (wire w))
  /\ (answers_object L o = true ->
      access_token c' = carried_token L o
      /\ token_expiry c' = now + 3000
      /\ forall E2 : Env,
          (forall n, time_time E2 n = time_time E n) ->
          answers_object L (network E2 (wire w) (token_request c)) = true ->
          token_expiry (snd (fst (_get_access_token L E2 c w)))
          = token_expiry c').
Proof.
  intro Hpre. apply needs_refresh_spec in Hpre. cbv zeta.
  pose proof (get_access_token_effect L E c w) as H. cbv zeta in H.
  destruct (_get_access_token L E c w) as [[res c'] w'].
  assert (Hwire : wire w' = (wire w ++ [token_exchange E c w])%list).
  { destruct H as [(Hn & _) | [(_ & _ & _ & _ & Hw) | (_ & _ & _ & _ & Hw)]];
      [congruence | exact Hw | exact Hw]. }
  split; [exact Hwire |]. split; [reflexivity |].
  split.
  { rewrite Hwire, identity_posts_app, identity_posts_token_exchange. lia. }
  intro Ha.
  destruct H as [(Hn & _) | [(_ & Hf & _) | (_ & _ & _ & Hc & _)]];
    [congruence | congruence |].
  subst c'. simpl. split; [reflexivity |]. split; [reflexivity |].
  intros E2 Hclock Ha2.
  assert (Hn2 : needs_refresh E2 c w = true).
  { unfold needs_refresh in *. now rewrite Hclock. }
  pose proof (get_access_token_effect L E2 c w) as H2. cbv zeta in H2.
  destruct (_get_access_token L E2 c w) as [[res2 c2] w2]. simpl.
  destruct H2 as [(Hn & _) | [(_ & Hf & _) | (_ & _ & _ & Hc & _)]];
    [congruence | congruence |].
  subst c2. simpl. now rewrite Hclock.
Qed.


(* ===================================================================== *)
(** ** Requests and failures of [generate_text]                          *)
(* ===================================================================== *)

Lemma append_nil_r (a : string) : a ++ EmptyString = a.
Proof. induction a as [|x a IH]; simpl; [reflexivity | now rewrite IH]. Qed.

Lemma Contains_refl (a : string) : Contains a a.
Proof. exists EmptyString, EmptyString. simpl. now rewrite append_nil_r. Qed.

Lemma Contains_app_r (n a b : string) : Contains n b -> Contains n (a ++ b).
Proof.
  intros (pre & post & ->). exists (a ++ pre), post.
  now rewrite append_assoc.
Qed.

Lemma Contains_app_l (n a b : string) : Contains n a -> Contains n (a ++ b).
Proof.
  intros (pre & post & ->). exists pre, (post ++ b).
  now rewrite !append_assoc.
Qed.

Lemma new_exchanges_app (w w' : World) (ext : list Exchange) :
  wire w' = (wire w ++ ext)%list -> new_exchanges w w' = ext.
Proof.
  intro H. unfold new_exchanges. rewrite H.
  rewrite skipn_app, skipn_all, Nat.sub_diag. reflexivity.
Qed.

Lemma generation_request_not_identity (L : Lib) (c : Client) (tok : json)
    (prompt ty : string) (n : Z) (temp : Q) :
  is_identity_request (generation_request L c tok prompt ty n temp) = false.
Proof. unfold is_identity_request. simpl. apply generation_url_not_identity. Qed.

(** The requests of one [generate_text]: none to the generation endpoint
    when no token could be had, else exactly the one built from the
    arguments and the object as [_get_access_token] left it. *)
Lemma generate_text_requests (L : Lib) (E : Env) (prompt ty : string) (n : Z)
    (temp : Q) (c : Client) (w : World) :
  let '(res, c1, _) := _get_access_token L E c w in
  let '(_, _, w') := generate_text L E prompt ty n temp c w in
  generation_requests w w'
  = match res with
    | Ok tok => [generation_request L c1 tok prompt ty n temp]
    | Raise _ => []
    end.
Proof.
  destruct (generate_text_run L E prompt ty n temp c w) as [v Hv]. rewrite Hv.
  pose proof (get_access_token_effect L E c w) as H. cbv zeta in H.
  destruct (_get_access_token L E c w) as [[res c1] w1].
  assert (Hw : exists ext,
             wire w1 = (wire w ++ ext)%list
             /\ filter (fun r => negb (is_identity_request r)) (map sent ext) = []).
  { destruct H as [(_ & _ & _ & Hw) | [(_ & _ & _ & _ & Hw) | (_ & _ & _ & _ & Hw)]].
    - exists []. now rewrite app_nil_r.
    - exists [token_exchange E c w]. auto.
    - exists [token_exchange E c w]. auto. }
  destruct Hw as (ext & Hw & Hext).
  unfold generation_requests.
  destruct res as [tok | e].
  - erewrite new_exchanges_app
      by (cbn [wire]; rewrite Hw, <- app_assoc; reflexivity).
    rewrite map_app, filter_app, Hext. cbn [map sent filter app].
    now rewrite generation_request_not_identity.
  - erewrite new_exchanges_app by exact Hw. exact Hext.
Qed.

(** The classification parser always returns a value and is silent: it
    changes neither the object nor the world. *)
Lemma extract_classification_total (L : Lib) (response : json) (c : Client)
    (w : World) :
  exists v, extract_classification L response c w = (Ok v, c, w).
Proof.
  unfold extract_classification, try_except, py_find, py_rfind,
    py_json_loads, bind, ret, raise.
  destruct response as [| b | z | q | s | l | d | nf]; simpl; eauto.
  destruct ((0 <=? str_find "{" s) && (str_find "{" s <? str_rfind "}" s + 1));
    simpl; eauto.
  destruct (json_loads L _); simpl; eauto.
Qed.

Lemma classify_requirements_world (L : Lib) (E : Env) (requirements : string)
    (c : Client) (w : World) :
  snd (classify_requirements L E requirements c w)
  = snd (generate_text L E (classify_requirements_prompt requirements)
           "classify" default_max_tokens (1 # 10) c w)
  /\ snd (fst (classify_requirements L E requirements c w))
     = snd (fst (generate_text L E (classify_requirements_prompt requirements)
                   "classify" default_max_tokens (1 # 10) c w)).
Proof.
  unfold classify_requirements, bind.
  destruct (generate_text_run L E (classify_requirements_prompt requirements)
              "classify" default_max_tokens (1 # 10) c w) as [v Hv].
  rewrite Hv.
  destruct (extract_classification_total L v
              (snd (fst (_get_access_token L E c w)))
              (snd (Ok v, snd (fst (_get_access_token L E c w)),
                    match _get_access_token L E c w with
                    | (Ok tok, c1, w1) =>
                        let req := generation_request L c1 tok
                                     (classify_requirements_prompt requirements)
                                     "classify" default_max_tokens (1 # 10) in
                        mkWorld (ticks w1)
                          (wire w1 ++ [mkExchange req (network E (wire w1) req)])
                    | (Raise _, _, w1) => w1
                    end))) as [v' Hv'].
  cbn [snd fst] in *. rewrite Hv'. auto.
Qed.

(** With the type classify the temperature argument is not used. *)
Lemma generate_text_classify_temperature (L : Lib) (E : Env) (prompt : string)
    (n : Z) (temp temp' : Q) (c : Client) (w : World) :
  generate_text L E prompt "classify" n temp c w
  = generate_text L E prompt "classify" n temp' c w.
Proof.
  unfold generate_text, generate_text_body, generation_request,
    decoding_parameters.
  reflexivity.
Qed.

(** C8 (temperature dispatch).  Every request that [generate_text] sends to
    the generation endpoint carries, among its decoding parameters, the
    temperature 0.1 when [type_of_request] is the text classify, and the
    temperature argument otherwise; such a request is sent whenever a token
    is obtained.  [classify_requirements] calls [generate_text] with that
    type on the classification prompt: it leaves the object and the world
    as that call does whatever the temperature argument, and whenever a
    token is obtained it sends exactly one generation request, with the
    classification prompt as input and the temperature 0.1.  The code,
    test, fix, summarize and chat operations send, whenever a token is
    obtained, exactly one generation request, with the temperature 0.7. *)
Theorem temperature_dispatch (L : Lib) (E : Env) (c : Client) (w : World) :
  (forall prompt ty n temp,
      let '(res, _, _) := _get_access_token L E c w in
      let '(_, _, w') := generate_text L E prompt ty n temp c w in
      Forall (fun r =>
                request_temperature r
                = Some (JFloat (if String.eqb ty "classify"
                                then 1 # 10 else temp)))
             (generation_requests w w')
      /\ ((exists tok, res = Ok tok) ->
          List.length (generation_requests w w') = 1%nat))
  /\ (forall requirements,
         let prompt := classify_requirements_prompt requirements in
         let '(res, _, _) := _get_access_token L E c w in
         let '(_, c', w') := classify_requirements L E requirements c w in
         Forall (fun r => request_temperature r = Some (JFloat (1 # 10)))
                (generation_requests w w')
         /\ (forall temp,
                let run := generate_text L E prompt "classify"
                             default_max_tokens temp c w in
                c' = snd (fst run) /\ w' = snd run)
         /\ ((exists tok, res = Ok tok) ->
             exists r,
               generation_requests w w' = [r]
               /\ request_temperature r = Some (JFloat (1 # 10))
               /\ request_input r = Some prompt))
  /\ (forall m,
         match m with
         | CallGenerateCode _ _ | CallGenerateTests _ _ | CallFixBugs _ _
         | CallSummarizeCode _ | CallChatAssistant _ _ =>
             let '(res, _, _) := _get_access_token L E c w in
             let '(_, _, w') := perform L E m c w in
             Forall (fun r => request_temperature r = Some (JFloat (7 # 10)))
                    (generation_requests w w')
             /\ ((exists tok, res = Ok tok) ->
                 exists r,
                   generation_requests w w' = [r]
                   /\ request_temperature r = Some (JFloat (7 # 10)))
         | _ => True
         end).
Proof.
  assert (Hgen : forall prompt ty n temp,
             let '(res, _, _) := _get_access_token L E c w in
             let '(_, _, w') := generate_text L E prompt ty n temp c w in
             Forall (fun r =>
                       request_temperature r
                       = Some (JFloat (if String.eqb ty "classify"
                                       then 1 # 10 else temp)))
                    (generation_requests w w')
             /\ ((exists tok, res = Ok tok) ->
                 List.length (generation_requests w w') = 1%nat)).
  { intros prompt ty n temp.
    pose proof (generate_text_requests L E prompt ty n temp c w) as H.
    destruct (_get_access_token L E c w) as [[res c1] w1].
    destruct (generate_text L E prompt ty n temp c w) as [[o c'] w'].
    rewrite H. destruct res as [tok | e].
    - split; [| reflexivity]. constructor; [reflexivity | constructor].
    - split; [constructor | intros (tok & Ht); discriminate]. }
  assert (Hone : forall prompt ty n temp,
             let '(res, _, _) := _get_access_token L E c w in
             let w' := snd (generate_text L E prompt ty n temp c w) in
             Forall (fun r =>
                       request_temperature r
                       = Some (JFloat (if String.eqb ty "classify"
                                       then 1 # 10 else temp)))
                    (generation_requests w w')
             /\ ((exists tok, res = Ok tok) ->
                 exists r,
                   generation_requests w w' = [r]
                   /\ request_temperature r
                      = Some (JFloat (if String.eqb ty "classify"
                                      then 1 # 10 else temp))
                   /\ request_input r = Some prompt)).
  { intros prompt ty n temp.
    pose proof (generate_text_requests L E prompt ty n temp c w) as H.
    destruct (_get_access_token L E c w) as [[res c1] w1].
    destruct (generate_text L E prompt ty n temp c w) as [[o c'] w'].
    cbn [snd]. rewrite H. destruct res as [tok | e].
    - split; [constructor; [reflexivity | constructor] |].
      intros _. eexists. repeat split.
    - split; [constructor | intros (tok & Ht); discriminate]. }
  split; [exact Hgen |]. split.
  - intro requirements. cbv zeta.
    pose proof (classify_requirements_world L E requirements c w) as [Hw Hc].
    specialize (Hone (classify_requirements_prompt requirements) "classify"
                  default_max_tokens (1 # 10)).
    rewrite <- Hw in Hone.
    assert (Hany : forall temp,
               snd (fst (classify_requirements L E requirements c w))
               = snd (fst (generate_text L E
                             (classify_requirements_prompt requirements)
                             "classify" default_max_tokens temp c w))
               /\ snd (classify_requirements L E requirements c w)
                  = snd (generate_text L E
                           (classify_requirements_prompt requirements)
                           "classify" default_max_tokens temp c w)).
    { intro temp.
      rewrite (generate_text_classify_temperature L E _ _ temp (1 # 10)).
      split; assumption. }
    destruct (_get_access_token L E c w) as [[res c1] w1].
    destruct (classify_requirements L E requirements c w) as [[o c'] w'].
    cbn [fst snd] in *. destruct Hone as [Hall Hex].
    split; [exact Hall |]. split; [exact Hany | exact Hex].
  - intros [| | r l | co f | co d | co | | q ctx]; try exact I; cbn [perform].
    + specialize (Hone (generate_code_prompt r l) "code" default_max_tokens (7 # 10)).
      unfold generate_code.
      destruct (_get_access_token L E c w) as [[res c1] w1].
      destruct (generate_text L E _ "code" _ _ c w) as [[o c'] w'].
      destruct Hone as [Hall Hex]. split; [exact Hall |].
      intro Ht. destruct (Hex Ht) as (x & Hx & Hxt & _). eauto.
    + specialize (Hone (generate_tests_prompt co f) "test" default_max_tokens (7 # 10)).
      unfold generate_tests.
      destruct (_get_access_token L E c w) as [[res c1] w1].
      destruct (generate_text L E _ "test" _ _ c w) as [[o c'] w'].
      destruct Hone as [Hall Hex]. split; [exact Hall |].
      intro Ht. destruct (Hex Ht) as (x & Hx & Hxt & _). eauto.
    + specialize (Hone (fix_bugs_prompt co d) "fix" default_max_tokens (7 # 10)).
      unfold fix_bugs.
      destruct (_get_access_token L E c w) as [[res c1] w1].
      destruct (generate_text L E _ "fix" _ _ c w) as [[o c'] w'].
      destruct Hone as [Hall Hex]. split; [exact Hall |].
      intro Ht. destruct (Hex Ht) as (x & Hx & Hxt & _). eauto.
    + specialize (Hone (summarize_code_prompt co) "summarize" default_max_tokens (7 # 10)).
      unfold summarize_code.
      destruct (_get_access_token L E c w) as [[res c1] w1].
      destruct (generate_text L E _ "summarize" _ _ c w) as [[o c'] w'].
      destruct Hone as [Hall Hex]. split; [exact Hall |].
      intro Ht. destruct (Hex Ht) as (x & Hx & Hxt & _). eauto.
    + unfold chat_assistant.
      match goal with
      | |- context [generate_text L E ?p "chat" _ _ c w] =>
          specialize (Hone p "chat" default_max_tokens (7 # 10))
      end.
      destruct (_get_access_token L E c w) as [[res c1] w1].
      match goal with
      | |- context [generate_text L E ?p "chat" _ _ c w] =>
          destruct (generate_text L E p "chat" default_max_tokens (7 # 10) c w)
            as [[o c'] w']
      end.
      destruct Hone as [Hall Hex]. split; [exact Hall |].
      intro Ht. destruct (Hex Ht) as (x & Hx & Hxt & _). eauto.
Qed.

Lemma generate_code_prompt_contains (requirements language : string) :
  Contains requirements (generate_code_prompt requirements language).
Proof.
  unfold generate_code_prompt.
  do 3 apply Contains_app_r. apply Contains_app_l, Contains_refl.
Qed.

(** A refresh changes the token and its expiry, nothing else. *)
Lemma get_access_token_credentials (L : Lib) (E : Env) (c : Client)
    (w : World) :
  let c' := snd (fst (_get_access_token L E c w)) in
  api_key c' = api_key c /\ project_id c' = project_id c
  /\ url c' = url c /\ model_id c' = model_id c.
Proof.
  pose proof (get_access_token_effect L E c w) as H. cbv zeta in *.
  destruct (_get_access_token L E c w) as [[res c'] w']. cbn [fst snd].
  destruct H as [(_ & _ & -> & _) | [(_ & _ & _ & -> & _) | (_ & _ & _ & -> & _)]];
    auto.
Qed.

(** C9 (request construction).  [generate_code] renders the code template
    of lines 168 to 180 around the language and the requirements: the prompt
    is the text written out below, line by line, so both arguments are
    substrings of it.  If a token is obtained, exactly one request goes to
    the generation endpoint; its body is a JSON object with the keys
    [model_id], [input], [parameters], [project_id], where [input] is that
    prompt and the two ids are those the client was configured with.  If no
    token is obtained, no generation request is sent. *)
Theorem generate_code_request (L : Lib) (E : Env) (requirements language : string)
    (c : Client) (w : World) :
  let prompt :=
    "You are an expert software developer. Generate high-quality, production-ready "
    ++ language ++ " code based on the following requirements." ++ nl
    ++ nl
    ++ "Requirements: " ++ requirements ++ nl
    ++ nl
    ++ "Please provide:" ++ nl
    ++ "1. Clean, well-documented code" ++ nl
    ++ "2. Proper error handling" ++ nl
    ++ "3. Best practices implementation" ++ nl
    ++ "4. Comments explaining key functionality" ++ nl
    ++ nl
    ++ "Generate only the code with appropriate comments. Do not include explanations outside the code."
    ++ nl
    ++ nl
    ++ "Code:" in
  Contains requirements prompt
  /\ Contains language prompt
  /\ let '(res, _, _) := _get_access_token L E c w in
     let '(_, _, w') := generate_code L E requirements language c w in
     match res with
     | Raise _ => generation_requests w w' = []
     | Ok _ =>
         exists r d,
           generation_requests w w' = [r]
           /\ req_url r = url c ++ GENERATION_PATH
           /\ json_body r = Some d
           /\ dict_keys d = ["model_id"; "input"; "parameters"; "project_id"]
           /\ dict_get "input" d = Some (JStr prompt)
           /\ dict_get "model_id" d = Some (JStr (model_id c))
           /\ dict_get "project_id" d = Some (JStr (project_id c))
     end.
Proof.
  cbv zeta.
  match goal with
  | |- Contains _ ?p /\ _ =>
      change p with (generate_code_prompt requirements language)
  end.
  split; [apply generate_code_prompt_contains |].
  split; [unfold generate_code_prompt; apply Contains_app_r, Contains_app_l,
            Contains_refl |].
  unfold generate_code.
  pose proof (generate_text_requests L E
                (generate_code_prompt requirements language) "code"
                default_max_tokens (7 # 10) c w) as H.
  pose proof (get_access_token_credentials L E c w) as Hc. cbv zeta in Hc.
  destruct (_get_access_token L E c w) as [[res c1] w1]. cbn [fst snd] in Hc.
  destruct Hc as (_ & Hp & Hu & Hm).
  destruct (generate_text L E _ "code" _ _ c w) as [[o c'] w'].
  rewrite H. destruct res as [tok | e]; [| reflexivity].
  eexists. eexists. split; [reflexivity |].
  cbn [generation_request req_url json_body req_body dict_keys map fst].
  rewrite Hu. split; [reflexivity |]. split; [reflexivity |].
  split; [reflexivity |]. split; [reflexivity |].
  split; simpl; congruence.
Qed.

(** [generate_text] once the token is there: what remains is decided by the
    fate of the generation request. *)
Lemma generate_text_failed_post (L : Lib) (E : Env) (prompt ty : string)
    (n : Z) (temp : Q) (c c1 : Client) (w w1 : World) (tok : json)
    (f : transport_fault) (msg : string) :
  _get_access_token L E c w = (Ok tok, c1, w1) ->
  network E (wire w1) (generation_request L c1 tok prompt ty n temp)
  = Failed f msg ->
  fst (fst (generate_text L E prompt ty n temp c w))
  = fst (fst (generate_text_handlers L (mk_exn (fault_class f) msg) c1 w1)).
Proof.
  intros Htok Hnet.
  unfold generate_text, try_except, generate_text_body, bind.
  rewrite Htok. unfold get_self, requests_post. rewrite Hnet.
  unfold generate_text_handlers, bind, get_self, ret, raise.
  destruct f; reflexivity.
Qed.

Lemma generate_text_http_error (L : Lib) (E : Env) (prompt ty : string)
    (n : Z) (temp : Q) (c c1 : Client) (w w1 : World) (tok : json)
    (r : Response) :
  _get_access_token L E c w = (Ok tok, c1, w1) ->
  network E (wire w1) (generation_request L c1 tok prompt ty n temp)
  = Answered r ->
  400 <= status_code r < 600 ->
  fst (fst (generate_text L E prompt ty n temp c w))
  = Ok (JStr (http_error_text L (mkExn HTTPError (http_error_msg r) (Some r)))).
Proof.
  intros Htok Hnet Hst.
  unfold generate_text, try_except, generate_text_body, bind.
  rewrite Htok. unfold get_self, requests_post. rewrite Hnet.
  unfold raise_for_status.
  assert (Herr : is_client_error r || is_server_error r = true).
  { unfold is_client_error, is_server_error.
    destruct (Z.ltb_spec (status_code r) 500).
    - apply orb_true_iff. left. apply andb_true_iff. split; [lia | reflexivity].
    - apply orb_true_iff. right. apply andb_true_iff. split; lia. }
  rewrite Herr. reflexivity.
Qed.

(** C3 (transport-failure mapping).  [generate_text] never raises.  When
    the generation request is answered with an error status (400 to 599, a
    500 for one), it returns a text that contains the words HTTP error and
    the detail taken from the body of the answer: the decoded JSON when the
    body is JSON, the raw body otherwise.  A connection error and a timeout
    at the generation endpoint are caught by clauses of their own and give
    texts that start with Connection error and Timeout error (a connect
    timeout, which is both, meets the first of the two clauses); any other
    failure of the request, and any failure to get a token, also comes back
    as a text. *)
Theorem transport_failure_mapping (L : Lib) (E : Env) (prompt ty : string)
    (n : Z) (temp : Q) (c : Client) (w : World) :
  let res := fst (fst (generate_text L E prompt ty n temp c w)) in
  (exists v, res = Ok v)
  /\ (forall e c1 w1,
         _get_access_token L E c w = (Raise e, c1, w1) ->
         exists s, res = Ok (JStr s))
  /\ (forall tok c1 w1,
         _get_access_token L E c w = (Ok tok, c1, w1) ->
         let req := generation_request L c1 tok prompt ty n temp in
         (forall r,
             network E (wire w1) req = Answered r ->
             400 <= status_code r < 600 ->
             let detail :=
               match json_loads L (text r) with
               | Some d => py_str L d
               | None => text r
               end in
             exists s, res = Ok (JStr s)
                       /\ Contains "HTTP error" s /\ Contains detail s)
         /\ (forall msg,
                network E (wire w1) req = Failed ConnectionFault msg ->
                res = Ok (JStr ("Connection error: " ++ msg
                                ++ " - Check network or Watsonx URL: "
                                ++ url c)))
         /\ (forall msg,
                network E (wire w1) req = Failed TimeoutFault msg ->
                res = Ok (JStr ("Timeout error: " ++ msg
                                ++ " - Watsonx API took too long to respond")))
         /\ (forall f msg,
                network E (wire w1) req = Failed f msg ->
                res = Ok (JStr
                            match f with
                            | ConnectionFault | ConnectTimeoutFault =>
                                "Connection error: " ++ msg
                                ++ " - Check network or Watsonx URL: " ++ url c
                            | TimeoutFault | ReadTimeoutFault =>
                                "Timeout error: " ++ msg
                                ++ " - Watsonx API took too long to respond"
                            | OtherFault =>
                                "Unexpected error during API call: " ++ msg
                            end))).
Proof.
  cbv zeta. split; [| split].
  - destruct (generate_text_run L E prompt ty n temp c w) as [v Hv].
    rewrite Hv. eexists; reflexivity.
  - intros e c1 w1 Htok.
    unfold generate_text, try_except, generate_text_body, bind. rewrite Htok.
    destruct (generate_text_handlers_total L e c1 w1) as [s Hs]. rewrite Hs.
    eexists; reflexivity.
  - intros tok c1 w1 Htok.
    pose proof (get_access_token_credentials L E c w) as Hc. cbv zeta in Hc.
    rewrite Htok in Hc. cbn [fst snd] in Hc. destruct Hc as (_ & _ & Hu & _).
    split; [| split; [| split]].
    + intros r Hnet Hst.
      rewrite (generate_text_http_error L E prompt ty n temp c c1 w w1 tok r
                 Htok Hnet Hst).
      eexists. split; [reflexivity |].
      unfold http_error_text. cbn [exc_response exc_str].
      destruct (json_loads L (text r)) as [d |].
      * split.
        -- apply Contains_app_l.
           exists EmptyString, (" occurred: " ++ http_error_msg r). reflexivity.
        -- rewrite <- append_assoc. apply Contains_app_r, Contains_refl.
      * split.
        -- apply Contains_app_l.
           exists EmptyString, (" occurred: " ++ http_error_msg r). reflexivity.
        -- rewrite <- append_assoc. apply Contains_app_r, Contains_refl.
    + intros msg Hnet.
      rewrite (generate_text_failed_post L E prompt ty n temp c c1 w w1 tok _ _
                 Htok Hnet).
      rewrite <- Hu. reflexivity.
    + intros msg Hnet.
      rewrite (generate_text_failed_post L E prompt ty n temp c c1 w w1 tok _ _
                 Htok Hnet).
      reflexivity.
    + intros f msg Hnet.
      rewrite (generate_text_failed_post L E prompt ty n temp c c1 w w1 tok _ _
                 Htok Hnet).
      rewrite <- Hu. destruct f; reflexivity.
Qed.

(* ===================================================================== *)
(** ** The classification parser                                          *)
(* ===================================================================== *)

Lemma get_empty (k : nat) : String.get k EmptyString = None.
Proof. destruct k; reflexivity. Qed.

Lemma first_at_tail (ch a : ascii) (s : string) (i : nat) :
  first_at ch (String a s) (S i) -> a <> ch /\ first_at ch s i.
Proof.
  intros [Hget Hbefore]. split.
  - intro Heq. apply (Hbefore 0%nat); [lia | simpl; congruence].
  - split; [exact Hget |].
    intros k Hk. apply (Hbefore (S k)). lia.
Qed.

Lemma find_from_first (ch : ascii) (s : string) :
  forall (i : nat) (off : Z),
    first_at ch s i -> find_from ch s off = off + Z.of_nat i.
Proof.
  induction s as [| a s IH]; intros i off Hf.
  - destruct Hf as [Hget _]. rewrite get_empty in Hget. discriminate.
  - destruct i as [| i].
    + destruct Hf as [Hget _]. simpl in Hget. injection Hget as ->.
      simpl. rewrite Ascii.eqb_refl. lia.
    + apply first_at_tail in Hf. destruct Hf as [Hne Hf].
      simpl. destruct (Ascii.eqb_spec a ch); [contradiction |].
      rewrite (IH i (off + 1) Hf). lia.
Qed.

Lemma rfind_from_absent (ch : ascii) (s : string) :
  forall (off last : Z),
    (forall k, String.get k s <> Some ch) -> rfind_from ch s off last = last.
Proof.
  induction s as [| a s IH]; intros off last Hno; [reflexivity |].
  simpl. destruct (Ascii.eqb_spec a ch) as [-> | Hne].
  - exfalso. now apply (Hno 0%nat).
  - apply IH. intro k. apply (Hno (S k)).
Qed.

Lemma rfind_from_last (ch : ascii) (s : string) :
  forall (j : nat) (off last : Z),
    last_at ch s j -> rfind_from ch s off last = off + Z.of_nat j.
Proof.
  induction s as [| a s IH]; intros j off last [Hget Hafter].
  - rewrite get_empty in Hget. discriminate.
  - destruct j as [| j].
    + simpl in Hget. injection Hget as ->. simpl. rewrite Ascii.eqb_refl.
      rewrite rfind_from_absent; [lia |].
      intro k. apply (Hafter (S k)). lia.
    + simpl. rewrite (IH j (off + 1)); [lia |].
      split; [exact Hget |]. intros k Hk. apply (Hafter (S k)). lia.
Qed.

Lemma str_contains_char_false (ch a : ascii) (s : string) :
  str_contains (String ch EmptyString) (String a s) = false ->
  a <> ch /\ str_contains (String ch EmptyString) s = false.
Proof.
  simpl. intro H. apply orb_false_iff in H. destruct H as [Hp Hs].
  split; [| exact Hs].
  intros ->. destruct (ascii_dec ch ch) as [_ | Hne]; [| now apply Hne].
  destruct s; discriminate.
Qed.

Lemma find_from_absent (ch : ascii) (s : string) :
  forall off, str_contains (String ch EmptyString) s = false ->
              find_from ch s off = -1.
Proof.
  induction s as [| a s IH]; intros off H; [reflexivity |].
  apply str_contains_char_false in H. destruct H as [Hne H].
  simpl. destruct (Ascii.eqb_spec a ch); [contradiction |]. now apply IH.
Qed.

Lemma rfind_from_absent_bool (ch : ascii) (s : string) :
  forall off last, str_contains (String ch EmptyString) s = false ->
                   rfind_from ch s off last = last.
Proof.
  induction s as [| a s IH]; intros off last H; [reflexivity |].
  apply str_contains_char_false in H. destruct H as [Hne H].
  simpl. destruct (Ascii.eqb_spec a ch); [contradiction |]. now apply IH.
Qed.

(** The parser on a text, in terms of the two positions it computes. *)
Lemma extract_classification_text (L : Lib) (s : string) (c : Client)
    (w : World) :
  extract_classification L (JStr s) c w
  = (Ok (if (0 <=? str_find "{" s) && (str_find "{" s <? str_rfind "}" s + 1)
         then match json_loads L (str_slice s (str_find "{" s)
                                    (str_rfind "}" s + 1)) with
              | Some v => v
              | None => error_dict "Failed to parse classification" (JStr s)
              end
         else error_dict "No valid JSON found in response" (JStr s)),
     c, w).
Proof.
  unfold extract_classification, try_except, py_find, py_rfind,
    py_json_loads, bind, ret, raise. cbn [py_str].
  destruct ((0 <=? str_find "{" s) && (str_find "{" s <? str_rfind "}" s + 1));
    [| reflexivity].
  destruct (json_loads L _); reflexivity.
Qed.

Lemma classify_requirements_unfold (L : Lib) (E : Env) (requirements : string)
    (c c' : Client) (w w' : World) (response : json) :
  generate_text L E (classify_requirements_prompt requirements) "classify"
    default_max_tokens (1 # 10) c w = (Ok response, c', w') ->
  classify_requirements L E requirements c w
  = extract_classification L response c' w'.
Proof. intro H. unfold classify_requirements, bind. now rewrite H. Qed.

(** C4 (classification round trip).  When [i] is the first position of an
    opening brace in the model text and [j] the last position of a closing
    one, with [i] not after [j], the parser decodes exactly the characters
    from [i] to [j] as JSON and returns the decoded value (or the fallback
    dict if they are no JSON); [classify_requirements] applies this parser to
    what [generate_text] returned.  On [noisy_text], the text of the
    specification's example (an object with the key Priority Level and the
    value High, with noise before and after), and with the JSON decoder
    above, the parser returns exactly the dict with that one key and
    value. *)
Theorem classification_round_trip :
  (forall (L : Lib) (s : string) (i j : nat) (c : Client) (w : World),
      first_at "{" s i -> last_at "}" s j -> (i <= j)%nat ->
      extract_classification L (JStr s) c w
      = (Ok match json_loads L (substring i (j - i + 1) s) with
            | Some v => v
            | None => error_dict "Failed to parse classification" (JStr s)
            end, c, w))
  /\ (forall (L : Lib) (E : Env) requirements c w s c' w',
         generate_text L E (classify_requirements_prompt requirements)
           "classify" default_max_tokens (1 # 10) c w = (Ok (JStr s), c', w') ->
         classify_requirements L E requirements c w
         = extract_classification L (JStr s) c' w')
  /\ (forall c w,
         extract_classification sample_lib (JStr noisy_text) c w
         = (Ok (JObj [("Priority Level", JStr "High")]), c, w)).
Proof.
  split; [| split].
  - intros L s i j c w Hi Hj Hij.
    rewrite extract_classification_text.
    unfold str_find, str_rfind.
    rewrite (find_from_first _ _ i 0 Hi), (rfind_from_last _ _ j 0 (-1) Hj).
    assert (Hc : (0 <=? 0 + Z.of_nat i) && (0 + Z.of_nat i <? 0 + Z.of_nat j + 1)
                 = true).
    { apply andb_true_iff. split; [apply Z.leb_le | apply Z.ltb_lt]; lia. }
    rewrite Hc. unfold str_slice.
    replace (Z.to_nat (0 + Z.of_nat i)) with i by lia.
    replace (Z.to_nat (0 + Z.of_nat j + 1 - (0 + Z.of_nat i)))
      with (j - i + 1)%nat by lia.
    reflexivity.
  - intros L E requirements c w s c' w' H.
    now apply classify_requirements_unfold.
  - intros c w. rewrite extract_classification_text. vm_compute. reflexivity.
Qed.

(** C5 (classification fallback).  [classify_requirements] never raises.
    When the text that [generate_text] returned contains no brace, it
    returns the dict with the keys [error] and [raw_response], the latter
    holding that whole text; when the candidate between the first opening
    and the last closing brace is no JSON, it returns such a dict as well,
    again with the whole text. *)
Theorem classification_fallback (L : Lib) (E : Env) (requirements : string)
    (c : Client) (w : World) :
  (exists v, fst (fst (classify_requirements L E requirements c w)) = Ok v)
  /\ forall s c' w',
      generate_text L E (classify_requirements_prompt requirements)
        "classify" default_max_tokens (1 # 10) c w = (Ok (JStr s), c', w') ->
      (str_contains "{" s = false /\ str_contains "}" s = false ->
       classify_requirements L E requirements c w
       = (Ok (JObj [("error", JStr "No valid JSON found in response");
                    ("raw_response", JStr s)]), c', w'))
      /\ (0 <= str_find "{" s < str_rfind "}" s + 1 ->
          json_loads L (str_slice s (str_find "{" s) (str_rfind "}" s + 1))
          = None ->
          classify_requirements L E requirements c w
          = (Ok (JObj [("error", JStr "Failed to parse classification");
                       ("raw_response", JStr s)]), c', w')).
Proof.
  split.
  - unfold classify_requirements, bind.
    destruct (generate_text_run L E (classify_requirements_prompt requirements)
                "classify" default_max_tokens (1 # 10) c w) as [v Hv].
    rewrite Hv.
    match goal with
    | |- context [extract_classification L v ?c1 ?w1] =>
        destruct (extract_classification_total L v c1 w1) as [v' Hv']
    end.
    rewrite Hv'. eexists; reflexivity.
  - intros s c' w' Hgen.
    rewrite (classify_requirements_unfold L E requirements c c' w w' _ Hgen).
    rewrite extract_classification_text. split.
    + intros [Ho Hc]. unfold str_find, str_rfind.
      rewrite (find_from_absent _ _ 0 Ho). reflexivity.
    + intros [H0 Hlt] Hnone.
      apply Z.leb_le in H0. apply Z.ltb_lt in Hlt.
      rewrite H0, Hlt, Hnone. reflexivity.
Qed.

(** C7 (the chat method of the integration module).  For every query and
    every context, [chat_assistant] of [watsonx_integration.py] raises
    [UnboundLocalError], a [NameError], when it reads [context_section] to
    build the prompt; nothing is returned, and the object and the world,
    the wire with them, are as before: no request was made, the call of
    [generate_text] that ends the method is never reached. *)
Theorem integration_chat_assistant_raises (L : Lib) (E : Env)
    (query context : string) (c : Client) (w : World) :
  exists e,
    Integration.chat_assistant L E query context c w = (Raise e, c, w)
    /\ exc_class e = UnboundLocalError
    /\ isinstance e NameError = true
    /\ exc_str e = interp_str L UnboundLocalError "context_section" JNull.
Proof. eexists. repeat split. Qed.

(* ===================================================================== *)
(** ** The invariant of the token cache                                   *)
(* ===================================================================== *)





Lemma generate_text_effect (L : Lib) (E : Env) (prompt ty : string) (n : Z)
    (temp : Q) (c : Client) (w : World) :
  snd (fst (generate_text L E prompt ty n temp c w))
  = snd (fst (_get_access_token L E c w))
  /\ exists ext,
      wire (snd (generate_text L E prompt ty n temp c w))
      = (wire (snd (_get_access_token L E c w)) ++ ext)%list.
Proof.
  destruct (generate_text_run L E prompt ty n temp c w) as [v Hv]. rewrite Hv.
  cbn [fst snd]. split; [reflexivity |].
  destruct (_get_access_token L E c w) as [[[tok | e] c1] w1]; cbn [snd].
  - eexists. reflexivity.
  - exists []. now rewrite app_nil_r.
Qed.

(** Every public call leaves the object as its one [_get_access_token]
    leaves it, and only adds to the wire. *)
Lemma perform_effect (L : Lib) (E : Env) (m : call) (c : Client) (w : World) :
  snd (fst (perform L E m c w)) = snd (fst (_get_access_token L E c w))
  /\ exists ext,
      wire (snd (perform L E m c w))
      = (wire (snd (_get_access_token L E c w)) ++ ext)%list.
Proof.
  destruct m; cbn [perform];
    try (unfold generate_code, generate_tests, fix_bugs, summarize_code,
           chat_assistant; apply generate_text_effect).
  - split; [reflexivity |]. exists []. now rewrite app_nil_r.
  - destruct (classify_requirements_world L E requirements c w) as [Hw Hc].
    rewrite Hw, Hc. apply generate_text_effect.
Qed.





(* ===================================================================== *)
(** ** The statements at concrete inputs                                  *)
(* ===================================================================== *)

(** Two calls of [generate_text] on a fresh client, the identity endpoint
    granting a token: the second call starts inside the window and the
    identity endpoint is asked once in all. *)
Lemma token_reuse_witness :
  let E := scripted_env 1000 (token_grant "tok-1") (generated "done") in
  let s1 := generate_text sample_lib E "first" "general" 1000 (7 # 10)
              sample_client fresh_world in
  let s2 := generate_text sample_lib E "second" "general" 1000 (7 # 10)
              (snd (fst s1)) (snd s1) in
  token_cached E (snd (fst s1)) (snd s1)
  /\ identity_posts (wire (snd s2)) = identity_posts (wire (snd s1))
  /\ (identity_posts (wire (snd s2)) <= 0 + 1)%nat.
Proof.
  cbv zeta.
  pose proof (proj2 (token_reuse sample_lib
                       (scripted_env 1000 (token_grant "tok-1") (generated "done")))
                sample_client fresh_world
                "first" "general" 1000 (7 # 10)
                "second" "general" 1000 (7 # 10)) as H.
  assert (Hc : token_cached
                 (scripted_env 1000 (token_grant "tok-1") (generated "done"))
                 (snd (fst (generate_text sample_lib
                              (scripted_env 1000 (token_grant "tok-1") (generated "done"))
                              "first" "general" 1000 (7 # 10)
                              sample_client fresh_world)))
                 (snd (generate_text sample_lib
                         (scripted_env 1000 (token_grant "tok-1") (generated "done"))
                         "first" "general" 1000 (7 # 10)
                         sample_client fresh_world))).
  { exists "tok-1". split; [vm_compute; reflexivity |].
    split; [discriminate | vm_compute; reflexivity]. }
  split; [exact Hc |].
  destruct (generate_text sample_lib
              (scripted_env 1000 (token_grant "tok-1") (generated "done"))
              "first" "general" 1000 (7 # 10) sample_client fresh_world)
    as [[o1 c1] w1].
  cbn [fst snd] in *.
  destruct (generate_text sample_lib
              (scripted_env 1000 (token_grant "tok-1") (generated "done"))
              "second" "general" 1000 (7 # 10) c1 w1) as [[o2 c2] w2].
  cbn [fst snd]. exact (H Hc).
Defined.

(** A fresh client holds no token: the first call asks the identity
    endpoint once and stores what it grants, for 3000 seconds from the
    reading of the clock whatever lifetime the answer names. *)
Lemma token_refresh_witness :
  let E := scripted_env 1000 (token_grant "tok-1") (generated "done") in
  let s := _get_access_token sample_lib E sample_client fresh_world in
  truthy (access_token sample_client) = false
  /\ identity_posts (wire (snd s)) = 1%nat
  /\ access_token (snd (fst s)) = JStr "tok-1"
  /\ token_expiry (snd (fst s)) = 4000.
Proof.
  cbv zeta.
  pose proof (token_refresh sample_lib
                (scripted_env 1000 (token_grant "tok-1") (generated "done"))
                sample_client fresh_world (or_introl eq_refl)) as H.
  cbv zeta in H.
  destruct (_get_access_token sample_lib
              (scripted_env 1000 (token_grant "tok-1") (generated "done"))
              sample_client fresh_world) as [[o c'] w'].
  cbn [fst snd].
  destruct H as (_ & _ & Hposts & Hobj).
  destruct (Hobj eq_refl) as (Htok & Hexp & _).
  split; [reflexivity |]. split; [exact Hposts |].
  split; [rewrite Htok; vm_compute; reflexivity
         | rewrite Hexp; vm_compute; reflexivity].
Defined.

(** The generation endpoint answers 500 with a body that is no JSON: the
    caller gets a text with the words HTTP error and that body. *)
Lemma transport_failure_mapping_witness :
  let E := scripted_env 1000 (token_grant "tok-1") (server_error "oops") in
  let res := fst (fst (generate_text sample_lib E "hi" "general" 1000 (7 # 10)
                         sample_client fresh_world)) in
  exists s, res = Ok (JStr s) /\ Contains "HTTP error" s /\ Contains "oops" s.
Proof.
  cbv zeta.
  set (E := scripted_env 1000 (token_grant "tok-1") (server_error "oops")).
  set (run := _get_access_token sample_lib E sample_client fresh_world).
  assert (Htok : run = (Ok (JStr "tok-1"), snd (fst run), snd run))
    by (vm_compute; reflexivity).
  pose proof (proj1 (proj2 (proj2 (transport_failure_mapping sample_lib E
                                     "hi" "general" 1000 (7 # 10)
                                     sample_client fresh_world))
                       (JStr "tok-1") (snd (fst run)) (snd run) Htok)) as H.
  cbv zeta in H.
  apply (H (mkResponse 500 "Internal Server Error" "https://endpoint.example"
              "oops")).
  - vm_compute. reflexivity.
  - cbn [status_code]. lia.
Defined.

(** In [noisy_text] the first opening brace is at position 6 and the last
    closing one at position 31; the parser returns the decoded object. *)
Lemma classification_round_trip_witness :
  first_at "{" noisy_text 6%nat /\ last_at "}" noisy_text 31%nat
  /\ extract_classification sample_lib (JStr noisy_text) sample_client fresh_world
     = (Ok (JObj [("Priority Level", JStr "High")]), sample_client, fresh_world).
Proof.
  assert (Hi : first_at "{" noisy_text 6%nat).
  { split; [reflexivity |]. intros k Hk.
    do 6 (destruct k as [| k]; [discriminate |]). lia. }
  assert (Hj : last_at "}" noisy_text 31%nat).
  { split; [reflexivity |]. intros k Hk.
    do 32 (destruct k as [| k]; [lia |]).
    do 6 (destruct k as [| k]; [discriminate |]).
    discriminate. }
  split; [exact Hi |]. split; [exact Hj |].
  rewrite (proj1 classification_round_trip sample_lib noisy_text 6%nat 31%nat
             sample_client fresh_world Hi Hj ltac:(lia)).
  vm_compute. reflexivity.
Defined.

(** A model answer without braces comes back whole inside the fallback
    dict. *)
Lemma classification_fallback_witness :
  let E := scripted_env 1000 (token_grant "tok-1") (generated "no json here") in
  str_contains "{" "no json here" = false
  /\ str_contains "}" "no json here" = false
  /\ fst (fst (classify_requirements sample_lib E "login page" sample_client
                 fresh_world))
     = Ok (JObj [("error", JStr "No valid JSON found in response");
                 ("raw_response", JStr "no json here")]).
Proof.
  cbv zeta.
  set (E := scripted_env 1000 (token_grant "tok-1") (generated "no json here")).
  set (run := generate_text sample_lib E
                (classify_requirements_prompt "login page") "classify"
                default_max_tokens (1 # 10) sample_client fresh_world).
  assert (Hgen : run = (Ok (JStr "no json here"), snd (fst run), snd run))
    by (vm_compute; reflexivity).
  pose proof (proj1 (proj2 (classification_fallback sample_lib E "login page"
                              sample_client fresh_world)
                       "no json here" (snd (fst run)) (snd run) Hgen)
                (conj eq_refl eq_refl)) as H.
  split; [reflexivity |]. split; [reflexivity |].
  rewrite H. reflexivity.
Defined.



(** A call of [classify_requirements] that obtains its token sends one
    request, with the classification prompt and the temperature 0.1. *)
Lemma temperature_dispatch_witness :
  let E := scripted_env 1000 (token_grant "tok-1") (generated "done") in
  let w' := snd (classify_requirements sample_lib E "login page" sample_client
                   fresh_world) in
  exists r,
    generation_requests fresh_world w' = [r]
    /\ request_temperature r = Some (JFloat (1 # 10))
    /\ request_input r = Some (classify_requirements_prompt "login page").
Proof.
  cbv zeta.
  pose proof (proj1 (proj2 (temperature_dispatch sample_lib
                       (scripted_env 1000 (token_grant "tok-1") (generated "done"))
                       sample_client fresh_world))
                "login page") as H.
  cbv zeta in H.
  assert (Htok : exists tok,
             fst (fst (_get_access_token sample_lib
                         (scripted_env 1000 (token_grant "tok-1") (generated "done"))
                         sample_client fresh_world)) = Ok tok)
    by (exists (JStr "tok-1"); vm_compute; reflexivity).
  destruct (_get_access_token sample_lib
              (scripted_env 1000 (token_grant "tok-1") (generated "done"))
              sample_client fresh_world) as [[res c1] w1].
  destruct (classify_requirements sample_lib
              (scripted_env 1000 (token_grant "tok-1") (generated "done"))
              "login page" sample_client fresh_world)
    as [[o c'] w'].
  cbn [fst snd] in *. destruct H as (_ & _ & Hex).
  exact (Hex Htok).
Defined.


(** The end-to-end scenario of the specification: the request that
    [generate_code] sends for the prompt of the example. *)
Example generate_code_scenario :
  let E := scripted_env 1000 (token_grant "tok-1") (generated "done") in
  let w' := snd (generate_code sample_lib E
                   "Create a function to add two numbers" "python"
                   sample_client fresh_world) in
  exists r d input,
    generation_requests fresh_world w' = [r]
    /\ json_body r = Some d
    /\ dict_keys d = ["model_id"; "input"; "parameters"; "project_id"]
    /\ dict_get "model_id" d = Some (JStr "ibm/granite")
    /\ dict_get "project_id" d = Some (JStr "project-1")
    /\ dict_get "input" d = Some (JStr input)
    /\ str_contains "Create a function to add two numbers" input = true.
Proof.
  cbv zeta. eexists. eexists. eexists.
  split; [vm_compute; reflexivity |].
  repeat split; vm_compute; reflexivity.
Qed.

(** The chat method of the integration module, run on a query. *)
Example integration_chat_assistant_run :
  fst (fst (Integration.chat_assistant sample_lib
              (scripted_env 1000 (token_grant "tok-1") (generated "done"))
              "What is a closure?" EmptyString sample_client fresh_world))
  = Raise (mk_exn UnboundLocalError "context_section").
Proof. reflexivity. Qed.

(* ===================================================================== *)
(** ** Further properties of the direct client                            *)
(* ===================================================================== *)

Lemma rstrip_slash_decompose (u : string) :
  exists n, u = rstrip_slash u ++ slashes n.
Proof.
  induction u as [| a u [n IH]]; [exists 0%nat; reflexivity |].
  simpl. destruct (rstrip_slash u) as [| b r] eqn:Hr.
  - simpl in IH. destruct (Ascii.eqb_spec a "/") as [-> | Hne].
    + exists (S n). simpl. now rewrite <- IH.
    + exists n. simpl. now rewrite <- IH.
  - exists n. simpl. simpl in IH. now rewrite <- IH.
Qed.

Lemma append_slash_not_empty (pre : string) : pre ++ "/" <> EmptyString.
Proof. destruct pre; discriminate. Qed.

Lemma rstrip_slash_no_trailing (u pre : string) : rstrip_slash u <> pre ++ "/".
Proof.
  revert pre. induction u as [| a u IH]; intros pre H.
  - simpl in H. symmetry in H. now apply append_slash_not_empty in H.
  - simpl in H. destruct (rstrip_slash u) as [| b r] eqn:Hr.
    + destruct (Ascii.eqb_spec a "/") as [-> | Hne].
      * symmetry in H. now apply append_slash_not_empty in H.
      * destruct pre as [| p pre]; simpl in H.
        -- injection H as H. now apply Hne.
        -- injection H as _ H. symmetry in H.
           now apply append_slash_not_empty in H.
    + destruct pre as [| p pre]; simpl in H.
      * discriminate.
      * injection H as _ H. now apply (IH pre).
Qed.

Lemma rstrip_slash_app_slash (u : string) :
  rstrip_slash (u ++ "/") = rstrip_slash u.
Proof.
  induction u as [| a u IH]; [reflexivity |].
  simpl. now rewrite IH.
Qed.

(** X1.  [__init__] stores the configured URL without its trailing
    slashes: what it stores ends in no slash, the configured URL is the
    stored one followed by slashes only, and one more slash at the end of
    the configured URL gives the same client.  The client starts with no
    token and the expiry 0. *)
Theorem init_strips_trailing_slashes (key project base model : string) :
  let c := __init__ key project base model in
  (exists n, base = url c ++ slashes n)
  /\ (forall pre, url c <> pre ++ "/")
  /\ __init__ key project (base ++ "/") model = c
  /\ access_token c = JNull /\ token_expiry c = 0.
Proof.
  cbv zeta. unfold __init__. cbn [url access_token token_expiry].
  split; [apply rstrip_slash_decompose |].
  split; [intro pre; apply rstrip_slash_no_trailing |].
  split; [now rewrite rstrip_slash_app_slash | auto].
Qed.

(** Every public call other than [_get_access_token] is one call of
    [generate_text], as far as the object and the world go. *)
Lemma perform_as_generate_text (L : Lib) (E : Env) (m : call) :
  m = CallGetAccessToken
  \/ exists prompt ty n temp,
      Forall (fun a => Contains a prompt) (call_texts m)
      /\ forall c w,
          snd (perform L E m c w) = snd (generate_text L E prompt ty n temp c w)
          /\ snd (fst (perform L E m c w))
             = snd (fst (generate_text L E prompt ty n temp c w)).
Proof.
  destruct m as [| p ty n temp | r l | co f | co d | co | r | q ctx];
    [now left | right ..]; cbn [perform call_texts].
  - exists p, ty, n, temp. split; [| auto].
    constructor; [apply Contains_refl | constructor].
  - exists (generate_code_prompt r l), "code", default_max_tokens, (7 # 10).
    split; [| auto]. unfold generate_code_prompt.
    constructor; [| constructor; [| constructor]].
    + do 3 apply Contains_app_r. apply Contains_app_l, Contains_refl.
    + apply Contains_app_r, Contains_app_l, Contains_refl.
  - exists (generate_tests_prompt co f), "test", default_max_tokens, (7 # 10).
    split; [| auto]. unfold generate_tests_prompt.
    constructor; [| constructor; [| constructor]].
    + do 3 apply Contains_app_r. apply Contains_app_l, Contains_refl.
    + apply Contains_app_r, Contains_app_l, Contains_refl.
  - exists (fix_bugs_prompt co d), "fix", default_max_tokens, (7 # 10).
    split; [| auto]. unfold fix_bugs_prompt.
    constructor; [| constructor; [| constructor]].
    + apply Contains_app_r, Contains_app_l, Contains_refl.
    + do 3 apply Contains_app_r. apply Contains_app_l, Contains_refl.
  - exists (summarize_code_prompt co), "summarize", default_max_tokens, (7 # 10).
    split; [| auto]. unfold summarize_code_prompt.
    constructor; [| constructor].
    apply Contains_app_r, Contains_app_l, Contains_refl.
  - exists (classify_requirements_prompt r), "classify", default_max_tokens,
      (1 # 10).
    split.
    + unfold classify_requirements_prompt.
      constructor; [| constructor].
      apply Contains_app_r, Contains_app_l, Contains_refl.
    + intros c w. apply classify_requirements_world.
  - unfold chat_assistant.
    eexists. exists "chat", default_max_tokens, (7 # 10).
    split; [| intros c w; split; reflexivity].
    unfold chat_prompt.
    constructor; [| constructor; [| constructor]].
    + do 3 apply Contains_app_r. apply Contains_app_l, Contains_refl.
    + apply Contains_app_r, Contains_app_l.
      destruct (truthy (JStr ctx)) eqn:Ht.
      * apply Contains_app_r, Contains_app_l, Contains_refl.
      * simpl in Ht. apply negb_false_iff, String.eqb_eq in Ht. subst ctx.
        apply Contains_refl.
Qed.

Lemma endpoints_called_app (w w' : World) (ext : list Exchange) :
  wire w' = (wire w ++ ext)%list ->
  endpoints_called w w' = map (fun x => is_identity_request (sent x)) ext.
Proof. intro H. unfold endpoints_called. now rewrite (new_exchanges_app w w' ext H). Qed.

Lemma get_access_token_endpoints (L : Lib) (E : Env) (c : Client) (w : World) :
  exists ext,
    wire (snd (_get_access_token L E c w)) = (wire w ++ ext)%list
    /\ (ext = [] \/ ext = [token_exchange E c w]).
Proof.
  pose proof (get_access_token_effect L E c w) as H. cbv zeta in H.
  destruct (_get_access_token L E c w) as [[res c'] w']. cbn [snd].
  destruct H as [(_ & _ & _ & Hw) | [(_ & _ & _ & _ & Hw) | (_ & _ & _ & _ & Hw)]].
  - exists []. rewrite app_nil_r. auto.
  - eauto.
  - eauto.
Qed.

Lemma generate_text_endpoints (L : Lib) (E : Env) (prompt ty : string) (n : Z)
    (temp : Q) (c : Client) (w : World) :
  let w' := snd (generate_text L E prompt ty n temp c w) in
  exists ext,
    wire w' = (wire w ++ ext)%list
    /\ In (map (fun x => is_identity_request (sent x)) ext)
          [[]; [true]; [false]; [true; false]].
Proof.
  cbv zeta.
  destruct (generate_text_run L E prompt ty n temp c w) as [v Hv]. rewrite Hv.
  cbn [snd].
  destruct (get_access_token_endpoints L E c w) as (ext & Hw & Hext).
  destruct (_get_access_token L E c w) as [[[tok | e] c1] w1]; cbn [snd] in Hw.
  - cbn [wire]. rewrite Hw, <- app_assoc. eexists. split; [reflexivity |].
    rewrite map_app. cbn [map sent]. rewrite generation_request_not_identity.
    destruct Hext as [-> | ->]; simpl; auto.
  - exists ext. split; [exact Hw |].
    destruct Hext as [-> | ->]; simpl; auto.
Qed.

(** X2.  Whatever public method is called, it only adds to the wire, and
    what it adds is nothing, one request to the identity endpoint, one
    request to the generation endpoint, or the two in this order: never more
    than one request to either endpoint, and never a generation request
    before the token request.  [_get_access_token] itself never calls the
    generation endpoint. *)
Theorem request_discipline (L : Lib) (E : Env) (m : call) (c : Client)
    (w : World) :
  let w' := snd (perform L E m c w) in
  wire w' = (wire w ++ new_exchanges w w')%list
  /\ In (endpoints_called w w') [[]; [true]; [false]; [true; false]]
  /\ In (endpoints_called w (snd (_get_access_token L E c w))) [[]; [true]].
Proof.
  cbv zeta.
  assert (Htok : In (endpoints_called w (snd (_get_access_token L E c w)))
                    [[]; [true]]).
  { destruct (get_access_token_endpoints L E c w) as (ext & Hw & Hext).
    rewrite (endpoints_called_app _ _ _ Hw).
    destruct Hext as [-> | ->]; simpl; auto. }
  assert (H : exists ext,
             wire (snd (perform L E m c w)) = (wire w ++ ext)%list
             /\ In (map (fun x => is_identity_request (sent x)) ext)
                   [[]; [true]; [false]; [true; false]]).
  { destruct (perform_as_generate_text L E m) as [-> | (p & ty & n & temp & _ & Hm)].
    - cbn [perform].
      destruct (get_access_token_endpoints L E c w) as (ext & Hw & Hext).
      exists ext. split; [exact Hw |].
      destruct Hext as [-> | ->]; simpl; auto.
    - destruct (Hm c w) as [Hw _]. rewrite Hw.
      apply generate_text_endpoints. }
  destruct H as (ext & Hw & Hext).
  split; [now rewrite (new_exchanges_app _ _ _ Hw) |].
  split; [now rewrite (endpoints_called_app _ _ _ Hw) | exact Htok].
Qed.

Lemma returned_token_is_cached (L : Lib) (E : Env) (c c1 : Client)
    (w w1 : World) (tok : json) :
  _get_access_token L E c w = (Ok tok, c1, w1) -> access_token c1 = tok.
Proof.
  intro Hrun.
  pose proof (get_access_token_effect L E c w) as H. cbv zeta in H.
  rewrite Hrun in H.
  destruct H as [(_ & Hres & -> & _) | [(_ & _ & (e & He) & _) | (_ & _ & Hres & -> & _)]].
  - now injection Hres.
  - discriminate.
  - destruct (truthy (carried_token L (network E (wire w) (token_request c))));
      [| discriminate].
    injection Hres as ->. reflexivity.
Qed.

(** X3.  The request that [generate_text] sends to the generation endpoint
    goes to the stored URL followed by the generation path, waits at most 60
    seconds, and is authorised with the very token that the call leaves in
    the cache: its [Authorization] header is the word Bearer and that
    token. *)
Theorem authorization_uses_cached_token (L : Lib) (E : Env)
    (prompt ty : string) (n : Z) (temp : Q) (c : Client) (w : World) :
  let '(_, c', w') := generate_text L E prompt ty n temp c w in
  Forall (fun r =>
            req_url r = url c ++ GENERATION_PATH
            /\ req_timeout r = 60
            /\ req_headers r
               = [("Authorization", "Bearer " ++ py_str L (access_token c'));
                  ("Content-Type", "application/json");
                  ("Accept", "application/json")])
         (generation_requests w w').
Proof.
  pose proof (generate_text_requests L E prompt ty n temp c w) as H.
  pose proof (generate_text_effect L E prompt ty n temp c w) as [Hc _].
  pose proof (get_access_token_credentials L E c w) as Hcred. cbv zeta in Hcred.
  destruct (_get_access_token L E c w) as [[res c1] w1] eqn:Hrun.
  destruct (generate_text L E prompt ty n temp c w) as [[o c'] w'].
  cbn [fst snd] in *. subst c'. rewrite H.
  destruct res as [tok | e]; [| constructor].
  rewrite (returned_token_is_cached L E c c1 w w1 tok Hrun).
  destruct Hcred as (_ & _ & Hu & _).
  constructor; [| constructor].
  cbn [generation_request req_url req_timeout req_headers]. rewrite Hu. auto.
Qed.

(** X4.  A refresh that meets no JSON object (the request failed, the
    status was an error, or the body was no JSON object) raises and leaves
    the object exactly as it was: a token that had expired stays in the
    cache with its old expiry, nothing is recorded about the failure, and
    the next call, at any time that is not earlier, asks the identity
    endpoint again. *)
Theorem failed_refresh_keeps_cache (L : Lib) (E : Env) (c : Client)
    (w : World) :
  needs_refresh E c w = true ->
  answers_object L (network E (wire w) (token_request c)) = false ->
  let '(res, c', _) := _get_access_token L E c w in
  (exists e, res = Raise e)
  /\ c' = c
  /\ forall w2,
      time_time E (ticks w) <= time_time E (ticks w2) ->
      needs_refresh E c' w2 = true
      /\ identity_posts (wire (snd (_get_access_token L E c' w2)))
         = S (identity_posts (wire w2)).
Proof.
  intros Hn Ha.
  pose proof (get_access_token_effect L E c w) as H. cbv zeta in H.
  destruct (_get_access_token L E c w) as [[res c'] w'].
  destruct H as [(Hn' & _) | [(_ & _ & He & -> & _) | (_ & Ha' & _)]];
    [congruence | | congruence].
  split; [exact He |]. split; [reflexivity |].
  intros w2 Hlater.
  assert (Hn2 : needs_refresh E c w2 = true).
  { apply needs_refresh_spec. apply needs_refresh_spec in Hn.
    destruct Hn as [Hf | Hexp]; [now left | right; lia]. }
  split; [exact Hn2 |].
  pose proof (get_access_token_effect L E c w2) as H2. cbv zeta in H2.
  destruct (_get_access_token L E c w2) as [[res2 c2] w2'].
  cbn [snd].
  destruct H2 as [(Hn' & _) | [(_ & _ & _ & _ & Hw) | (_ & _ & _ & _ & Hw)]];
    [congruence | |];
    rewrite Hw, identity_posts_app, identity_posts_token_exchange; lia.
Qed.

(** X5.  After a refresh that returned a token, the window is exactly 3000
    seconds from the clock reading of the refresh: a call at a time strictly
    inside it returns the same token without any request, and a call at the
    3000th second or later asks the identity endpoint again. *)
Theorem refresh_then_reuse (L : Lib) (E : Env) (c c1 : Client) (w w1 : World)
    (tok : json) :
  needs_refresh E c w = true ->
  _get_access_token L E c w = (Ok tok, c1, w1) ->
  let t := time_time E (ticks (after_check c w)) in
  token_expiry c1 = t + 3000
  /\ forall w2,
      (time_time E (ticks w2) < t + 3000 ->
       _get_access_token L E c1 w2
       = (Ok tok, c1, mkWorld (S (ticks w2)) (wire w2)))
      /\ (t + 3000 <= time_time E (ticks w2) ->
          identity_posts (wire (snd (_get_access_token L E c1 w2)))
          = S (identity_posts (wire w2))).
Proof.
  intros Hn Hrun. cbv zeta.
  pose proof (get_access_token_effect L E c w) as H. cbv zeta in H.
  rewrite Hrun in H.
  destruct H as [(Hn' & _) | [(_ & _ & (e & He) & _) | (_ & _ & Hres & Hc & _)]];
    [congruence | discriminate |].
  destruct (truthy (carried_token L (network E (wire w) (token_request c))))
    eqn:Ht; [| discriminate].
  injection Hres as Htok. subst tok.
  assert (Hexp : token_expiry c1 = time_time E (ticks (after_check c w)) + 3000)
    by (subst c1; reflexivity).
  assert (Hacc : access_token c1
                 = carried_token L (network E (wire w) (token_request c)))
    by (subst c1; reflexivity).
  split; [exact Hexp |].
  intro w2. split.
  - intro Hlt.
    rewrite (get_access_token_cached L E c1 w2); rewrite ?Hacc, ?Hexp; auto.
  - intro Hge.
    assert (Hn2 : needs_refresh E c1 w2 = true)
      by (apply needs_refresh_spec; right; rewrite Hexp; exact Hge).
    pose proof (get_access_token_effect L E c1 w2) as H2. cbv zeta in H2.
    destruct (_get_access_token L E c1 w2) as [[res2 c2] w2']. cbn [snd].
    destruct H2 as [(Hn' & _) | [(_ & _ & _ & _ & Hw) | (_ & _ & _ & _ & Hw)]];
      [congruence | |];
      rewrite Hw, identity_posts_app, identity_posts_token_exchange; lia.
Qed.

(** [generate_text] from the answer of the generation endpoint on: the rest
    of the [try] block after [raise_for_status] let the answer pass. *)
Lemma generate_text_answered (L : Lib) (E : Env) (prompt ty : string) (n : Z)
    (temp : Q) (c c1 : Client) (w w1 : World) (tok : json) (r : Response) :
  _get_access_token L E c w = (Ok tok, c1, w1) ->
  network E (wire w1) (generation_request L c1 tok prompt ty n temp)
  = Answered r ->
  transport_or_http_failure (Answered r) = false ->
  fst (fst (generate_text L E prompt ty n temp c w))
  = match json_loads L (text r) with
    | None =>
        Ok (JStr ("JSON decode error: " ++ json_error_str L (text r)
                  ++ " - Could not parse Watsonx API response"))
    | Some (JObj d) =>
        match dict_get "results" d with
        | Some (JArr (JObj first :: _)) =>
            match dict_get "generated_text" first with
            | Some v => Ok v
            | None =>
                Ok (JStr ("Unexpected error during API call: "
                          ++ py_repr L (JStr "generated_text")))
            end
        | Some (JArr []) | None =>
            Ok (JStr ("Error: Unexpected response format from Watsonx API: "
                      ++ py_repr L (JObj d)))
        | _ => fst (fst (generate_text L E prompt ty n temp c w))
        end
    | _ => fst (fst (generate_text L E prompt ty n temp c w))
    end.
Proof.
  intros Htok Hnet Hst.
  assert (Hrun : fst (fst (generate_text L E prompt ty n temp c w))
                 = fst (fst (try_except
                               (result <- response_json L r ;;
                                has_results <- py_in L "results" result ;;
                                nonempty <-
                                  (if has_results
                                   then (results <- py_getitem_str L result "results" ;;
                                         n <- py_len L results ;;
                                         ret (0 <? n))
                                   else ret false) ;;
                                if nonempty
                                then (results <- py_getitem_str L result "results" ;;
                                      first <- py_getitem_0 L results ;;
                                      py_getitem_str L first "generated_text")
                                else ret (JStr ("Error: Unexpected response format from Watsonx API: "
                                                ++ py_str L result)))
                               (generate_text_handlers L) c1
                               (mkWorld (ticks w1)
                                  (wire w1 ++ [mkExchange
                                                 (generation_request L c1 tok prompt ty n temp)
                                                 (Answered r)]))))).
  { unfold generate_text, try_except, generate_text_body, bind.
    rewrite Htok. unfold get_self, requests_post. rewrite Hnet.
    unfold raise_for_status, is_client_error, is_server_error.
    unfold transport_or_http_failure in Hst. rewrite Hst. reflexivity. }
  destruct (json_loads L (text r)) as [result |] eqn:Hjson.
  - destruct result as [| b | z | q | s | l | d | nf]; try reflexivity.
    destruct (dict_get "results" d) as [results |] eqn:Hres.
    + destruct results as [| b | z | q | s | l | d' | nf]; try reflexivity.
      destruct l as [| first rest].
      * rewrite Hrun.
        unfold try_except, bind, response_json, py_in, py_getitem_str, py_len,
          ret, raise.
        rewrite Hjson. cbv beta iota. rewrite Hres. reflexivity.
      * destruct first as [| b | z | q | s | l0 | fd | nf]; try reflexivity.
        rewrite Hrun.
        unfold try_except, bind, response_json, py_in, py_getitem_str, py_len,
          py_getitem_0, ret, raise.
        rewrite Hjson. cbv beta iota. rewrite Hres. cbv beta iota.
        replace (0 <? Z.of_nat (List.length (JObj fd :: rest))) with true
          by (symmetry; apply Z.ltb_lt; cbn [List.length]; lia).
        cbv beta iota.
        destruct (dict_get "generated_text" fd); reflexivity.
    + rewrite Hrun.
      unfold try_except, bind, response_json, py_in, ret, raise.
      rewrite Hjson. cbv beta iota. rewrite Hres. reflexivity.
  - rewrite Hrun.
    unfold try_except, bind, response_json, ret, raise.
    rewrite Hjson. reflexivity.
Qed.

(** X6.  When the generation endpoint answers, with a status that is no
    error, a JSON object whose [results] is a list that starts with an
    object holding [generated_text], [generate_text] returns exactly the
    value of that field: the first result only, and whatever JSON value it
    is, a text or not. *)
Theorem generate_text_returns_first_result (L : Lib) (E : Env)
    (prompt ty : string) (n : Z) (temp : Q) (c c1 : Client) (w w1 : World)
    (tok : json) (r : Response) (d first : dict) (rest : list json)
    (v : json) :
  _get_access_token L E c w = (Ok tok, c1, w1) ->
  network E (wire w1) (generation_request L c1 tok prompt ty n temp)
  = Answered r ->
  transport_or_http_failure (Answered r) = false ->
  json_loads L (text r) = Some (JObj d) ->
  dict_get "results" d = Some (JArr (JObj first :: rest)) ->
  dict_get "generated_text" first = Some v ->
  fst (fst (generate_text L E prompt ty n temp c w)) = Ok v.
Proof.
  intros Htok Hnet Hst Hjson Hres Hgen.
  rewrite (generate_text_answered L E prompt ty n temp c c1 w w1 tok r
             Htok Hnet Hst).
  now rewrite Hjson, Hres, Hgen.
Qed.

(** X7.  When the answer is a JSON object without [results], or with an
    empty list of results, [generate_text] returns the text that says the
    response format was unexpected, followed by the repr of the object. *)
Theorem generate_text_unexpected_format (L : Lib) (E : Env)
    (prompt ty : string) (n : Z) (temp : Q) (c c1 : Client) (w w1 : World)
    (tok : json) (r : Response) (d : dict) :
  _get_access_token L E c w = (Ok tok, c1, w1) ->
  network E (wire w1) (generation_request L c1 tok prompt ty n temp)
  = Answered r ->
  transport_or_http_failure (Answered r) = false ->
  json_loads L (text r) = Some (JObj d) ->
  dict_get "results" d = None \/ dict_get "results" d = Some (JArr []) ->
  fst (fst (generate_text L E prompt ty n temp c w))
  = Ok (JStr ("Error: Unexpected response format from Watsonx API: "
              ++ py_repr L (JObj d))).
Proof.
  intros Htok Hnet Hst Hjson Hres.
  rewrite (generate_text_answered L E prompt ty n temp c c1 w w1 tok r
             Htok Hnet Hst).
  rewrite Hjson. destruct Hres as [-> | ->]; reflexivity.
Qed.

(** X8.  Two malformed answers with a good status: a body that is no JSON
    gives the text of the JSON clause with the decoder's message; a first
    result without [generated_text] is a [KeyError] that the last clause
    turns into the text for unexpected errors, naming the key. *)
Theorem generate_text_malformed_answer (L : Lib) (E : Env)
    (prompt ty : string) (n : Z) (temp : Q) (c c1 : Client) (w w1 : World)
    (tok : json) (r : Response) :
  _get_access_token L E c w = (Ok tok, c1, w1) ->
  network E (wire w1) (generation_request L c1 tok prompt ty n temp)
  = Answered r ->
  transport_or_http_failure (Answered r) = false ->
  (json_loads L (text r) = None ->
   fst (fst (generate_text L E prompt ty n temp c w))
   = Ok (JStr ("JSON decode error: " ++ json_error_str L (text r)
               ++ " - Could not parse Watsonx API response")))
  /\ (forall d first rest,
         json_loads L (text r) = Some (JObj d) ->
         dict_get "results" d = Some (JArr (JObj first :: rest)) ->
         dict_get "generated_text" first = None ->
         fst (fst (generate_text L E prompt ty n temp c w))
         = Ok (JStr ("Unexpected error during API call: "
                     ++ py_repr L (JStr "generated_text")))).
Proof.
  intros Htok Hnet Hst.
  rewrite (generate_text_answered L E prompt ty n temp c c1 w w1 tok r
             Htok Hnet Hst).
  split.
  - intros ->. reflexivity.
  - intros d first rest -> -> ->. reflexivity.
Qed.

(** X9.  When a refresh is due and the request to the identity endpoint
    fails in transport, [generate_text] returns the text for unexpected
    errors with the words Authentication failed and the message of the
    fault, and sends nothing to the generation endpoint: the token request
    is the only request of the call. *)
Theorem generate_text_authentication_failure (L : Lib) (E : Env)
    (prompt ty : string) (n : Z) (temp : Q) (c : Client) (w : World)
    (f : transport_fault) (msg : string) :
  needs_refresh E c w = true ->
  network E (wire w) (token_request c) = Failed f msg ->
  let '(res, c', w') := generate_text L E prompt ty n temp c w in
  res = Ok (JStr ("Unexpected error during API call: Authentication failed: "
                  ++ msg))
  /\ c' = c
  /\ generation_requests w w' = []
  /\ new_exchanges w w' = [mkExchange (token_request c) (Failed f msg)].
Proof.
  intros Hn Hnet.
  assert (Htok : _get_access_token L E c w
                 = (Raise (mk_exn Exception ("Authentication failed: " ++ msg)),
                    c,
                    mkWorld (ticks (after_check c w))
                            (wire w ++ [mkExchange (token_request c)
                                          (Failed f msg)]))).
  { rewrite (get_access_token_refresh L E c w Hn).
    unfold try_except, refresh_token, token_handlers, requests_post, bind,
      get_self.
    rewrite wire_after_check, Hnet. destruct f; reflexivity. }
  pose proof (generate_text_requests L E prompt ty n temp c w) as Hreq.
  unfold generate_text, try_except, generate_text_body, bind in *.
  rewrite Htok in *. cbv beta iota in *.
  unfold generate_text_handlers, bind, get_self, ret in *.
  cbn [isinstance exc_class mk_exn issubclass ancestors existsb exn_class_eqb
       orb exc_str] in *.
  split; [reflexivity |]. split; [reflexivity |]. split; [exact Hreq |].
  apply new_exchanges_app. reflexivity.
Qed.

(** X10.  Every public call that sends a generation request sends, as its
    [input], a prompt that contains each text the caller handed over (the
    prompt itself, or the requirements, the language, the code, the
    framework, the error description, the query, the context), verbatim
    and whole. *)
Theorem prompts_carry_arguments (L : Lib) (E : Env) (m : call) (c : Client)
    (w : World) :
  Forall (fun r =>
            exists prompt,
              request_input r = Some prompt
              /\ Forall (fun a => Contains a prompt) (call_texts m))
         (generation_requests w (snd (perform L E m c w))).
Proof.
  destruct (perform_as_generate_text L E m) as [-> | (p & ty & n & temp & Hp & Hm)].
  - cbn [perform].
    destruct (get_access_token_endpoints L E c w) as (ext & Hw & Hext).
    unfold generation_requests. rewrite (new_exchanges_app _ _ _ Hw).
    destruct Hext as [-> | ->]; constructor.
  - destruct (Hm c w) as [Hw _]. rewrite Hw.
    pose proof (generate_text_requests L E p ty n temp c w) as H.
    destruct (_get_access_token L E c w) as [[res c1] w1].
    destruct (generate_text L E p ty n temp c w) as [[o c'] w'].
    cbn [snd]. rewrite H.
    destruct res as [tok | e]; constructor; [| constructor].
    exists p. split; [reflexivity | exact Hp].
Qed.

Lemma perform_credentials (L : Lib) (E : Env) (m : call) (c : Client)
    (w : World) :
  let c' := snd (fst (perform L E m c w)) in
  api_key c' = api_key c /\ project_id c' = project_id c
  /\ url c' = url c /\ model_id c' = model_id c.
Proof.
  cbv zeta. destruct (perform_effect L E m c w) as [Hc _]. rewrite Hc.
  apply get_access_token_credentials.
Qed.

(** X11.  The credentials of a client never change: after any session of
    public calls, whatever the network and the clock do, the API key, the
    project id, the URL and the model id are those the client was built
    with. *)
Theorem credentials_are_immutable (L : Lib) (E : Env) (ms : list call)
    (c : Client) (w : World) :
  let c' := fst (session L E ms c w) in
  api_key c' = api_key c /\ project_id c' = project_id c
  /\ url c' = url c /\ model_id c' = model_id c.
Proof.
  cbv zeta. revert c w.
  induction ms as [| m ms IH]; intros c w; [cbn; auto |].
  cbn [session].
  pose proof (perform_credentials L E m c w) as H. cbv zeta in H.
  destruct (perform L E m c w) as [[o c1] w1]. cbn [fst snd] in H.
  destruct H as (Hk & Hp & Hu & Hm).
  destruct (IH c1 w1) as (Hk' & Hp' & Hu' & Hm').
  repeat split; congruence.
Qed.

(* ===================================================================== *)
(** ** Further properties of the classification parser                    *)
(* ===================================================================== *)

Lemma find_from_found (ch : ascii) (s : string) :
  forall off,
    find_from ch s off = -1
    \/ exists k, find_from ch s off = off + Z.of_nat k
                 /\ String.get k s = Some ch.
Proof.
  induction s as [| a s IH]; intro off; [now left |].
  simpl. destruct (Ascii.eqb_spec a ch) as [-> | Hne].
  - right. exists 0%nat. split; [lia | reflexivity].
  - destruct (IH (off + 1)) as [H | (k & Hk & Hget)]; [now left | right].
    exists (S k). split; [lia | exact Hget].
Qed.

Lemma substring_head (ch : ascii) (s : string) :
  forall k m, String.get k s = Some ch ->
              exists rest, substring k (S m) s = String ch rest.
Proof.
  induction s as [| a s IH]; intros k m Hget.
  - rewrite get_empty in Hget. discriminate.
  - destruct k as [| k].
    + simpl in Hget. injection Hget as ->. simpl. eauto.
    + simpl in Hget. simpl. now apply IH.
Qed.

(** X12.  The parser does not try to decode anything, and returns the dict
    that says no valid JSON was found with the whole text, whenever the text
    has no opening brace, or no closing brace, or its last closing brace
    comes before its first opening one. *)
Theorem parser_needs_ordered_braces (L : Lib) (s : string) (c : Client)
    (w : World) :
  str_contains "{" s = false
  \/ str_contains "}" s = false
  \/ (exists i j, first_at "{" s i /\ last_at "}" s j /\ (j < i)%nat) ->
  extract_classification L (JStr s) c w
  = (Ok (JObj [("error", JStr "No valid JSON found in response");
               ("raw_response", JStr s)]), c, w).
Proof.
  intro H. rewrite extract_classification_text.
  assert (Hc : (0 <=? str_find "{" s) && (str_find "{" s <? str_rfind "}" s + 1)
               = false).
  { unfold str_find, str_rfind.
    destruct H as [Ho | [Hcl | (i & j & Hi & Hj & Hlt)]].
    - rewrite (find_from_absent _ _ 0 Ho). reflexivity.
    - rewrite (rfind_from_absent_bool _ _ 0 (-1) Hcl).
      destruct (find_from_found "{" s 0) as [-> | (k & -> & _)]; [reflexivity |].
      apply andb_false_iff. right. apply Z.ltb_ge. lia.
    - rewrite (find_from_first _ _ i 0 Hi), (rfind_from_last _ _ j 0 (-1) Hj).
      apply andb_false_iff. right. apply Z.ltb_ge. lia. }
  rewrite Hc. reflexivity.
Qed.

(** The decoder gives an object for every document that starts with an
    opening brace. *)
Lemma members_object :
  forall fuel s acc v r,
    JSONDecoder.members fuel s acc = Some (v, r) -> exists d, v = JObj d.
Proof.
  induction fuel as [| f IH]; intros s acc v r H; [discriminate |].
  cbn [JSONDecoder.members] in H.
  destruct s as [| a s]; [discriminate |].
  destruct a as [[] [] [] [] [] [] [] []]; try discriminate.
  destruct (JSONDecoder.string_body (S (String.length s)) s) as [[k r1] |];
    [| discriminate].
  destruct (JSONDecoder.skip_ws r1) as [| a1 r2]; [discriminate |].
  destruct a1 as [[] [] [] [] [] [] [] []]; try discriminate.
  destruct (JSONDecoder.value f (JSONDecoder.skip_ws r2)) as [[v1 r3] |];
    [| discriminate].
  destruct (JSONDecoder.skip_ws r3) as [| a2 r4]; [discriminate |].
  destruct a2 as [[] [] [] [] [] [] [] []]; try discriminate.
  - injection H as <- _. eauto.
  - now apply IH in H.
Qed.

Lemma value_object (f : nat) (rest : string) (v r : _) :
  JSONDecoder.value (S f) (String "{" rest) = Some (v, r) ->
  exists d, v = JObj d.
Proof.
  cbn [JSONDecoder.value]. intro H.
  destruct (JSONDecoder.skip_ws rest) as [| a r0];
    [now apply members_object in H |].
  destruct a as [[] [] [] [] [] [] [] []];
    first [now apply members_object in H | injection H as <- _; eauto].
Qed.

Lemma loads_object (rest : string) (v : json) :
  JSONDecoder.loads (String "{" rest) = Some v -> exists d, v = JObj d.
Proof.
  unfold JSONDecoder.loads.
  replace (2 * String.length (String "{" rest) + 2)%nat
    with (S (2 * String.length rest + 3))%nat by (cbn [String.length]; lia).
  change (JSONDecoder.skip_ws (String "{" rest)) with (String "{" rest).
  intro H.
  destruct (JSONDecoder.value (S (2 * String.length rest + 3)) (String "{" rest))
    as [[v1 r1] |] eqn:Hv; [| discriminate].
  apply value_object in Hv. destruct Hv as [d ->].
  destruct (JSONDecoder.skip_ws r1); [| discriminate].
  injection H as <-. eauto.
Qed.

(** X13.  Let the decoder be any that, when it decodes a text that begins
    with an opening brace, yields an object; nothing else is asked of it:
    which texts it refuses is left open.  Then the classification parser
    always returns a dict and never raises, whatever value [generate_text]
    gave it: the decoded object, or one of the fallback dicts; so
    [classify_requirements] always returns a dict. *)
Theorem classification_is_a_dict (L : Lib) (E : Env) :
  (forall rest v, json_loads L (String "{" rest) = Some v -> exists d, v = JObj d) ->
  (forall response c w,
      exists d, extract_classification L response c w = (Ok (JObj d), c, w))
  /\ (forall requirements c w,
         exists d,
           fst (fst (classify_requirements L E requirements c w)) = Ok (JObj d)).
Proof.
  intro HL.
  assert (Hparse : forall response c w,
             exists d, extract_classification L response c w = (Ok (JObj d), c, w)).
  { intros response c w.
    destruct response as [| b | z | q | s | l | d | nf];
      try (eexists; reflexivity).
    rewrite extract_classification_text.
    destruct ((0 <=? str_find "{" s) && (str_find "{" s <? str_rfind "}" s + 1))
      eqn:Hc; [| eexists; reflexivity].
    apply andb_true_iff in Hc. destruct Hc as [H0 Hlt].
    apply Z.leb_le in H0. apply Z.ltb_lt in Hlt.
    destruct (json_loads L (str_slice s (str_find "{" s) (str_rfind "}" s + 1)))
      as [v |] eqn:Hv; [| eexists; reflexivity].
    unfold str_find in *.
    destruct (find_from_found "{" s 0) as [Hm | (k & Hk & Hget)]; [lia |].
    unfold str_slice in Hv. rewrite Hk in Hv.
    replace (Z.to_nat (0 + Z.of_nat k)) with k in Hv by lia.
    replace (Z.to_nat (str_rfind "}" s + 1 - (0 + Z.of_nat k)))
      with (S (Z.to_nat (str_rfind "}" s - Z.of_nat k))) in Hv by lia.
    destruct (substring_head "{" s k (Z.to_nat (str_rfind "}" s - Z.of_nat k)) Hget)
      as [rest Hrest].
    rewrite Hrest in Hv.
    destruct (HL rest v Hv) as [d ->]. eauto. }
  split; [exact Hparse |].
  intros requirements c w.
  unfold classify_requirements, bind.
  destruct (generate_text_run L E (classify_requirements_prompt requirements)
              "classify" default_max_tokens (1 # 10) c w) as [v Hv].
  rewrite Hv.
  match goal with
  | |- context [extract_classification L v ?c1 ?w1] =>
      destruct (Hparse v c1 w1) as [d Hd]
  end.
  rewrite Hd. eexists; reflexivity.
Qed.

(* ===================================================================== *)
(** ** The facade and the direct client                                   *)
(* ===================================================================== *)

(** X14.  The two ways of building a prompt agree: for every operation and
    all argument texts, [str.format] on the template of the facade gives
    exactly the prompt that the f-string of the direct client gives.  The
    arguments are put in as they are, never scanned for fields: braces in
    the text of a user raise nothing. *)
Theorem facade_prompts_agree (L : Lib) (F : FacadeLib) :
  (forall requirements language,
      py_format L F WatsonxAI.generate_code_template
        [("requirements", requirements); ("language", language)]
      = Ok (generate_code_prompt requirements language))
  /\ (forall code framework,
         py_format L F WatsonxAI.generate_tests_template
           [("code", code); ("framework", framework)]
         = Ok (generate_tests_prompt code framework))
  /\ (forall code error_description,
         py_format L F WatsonxAI.fix_bugs_template
           [("code", code); ("error_description", error_description)]
         = Ok (fix_bugs_prompt code error_description))
  /\ (forall code,
         py_format L F WatsonxAI.summarize_code_template [("code", code)]
         = Ok (summarize_code_prompt code))
  /\ (forall requirements,
         py_format L F WatsonxAI.classify_requirements_template
           [("requirements", requirements)]
         = Ok (classify_requirements_prompt requirements))
  /\ (forall context_section query,
         py_format L F WatsonxAI.chat_assistant_template
           [("context_section", context_section); ("query", query)]
         = Ok (chat_prompt context_section query)).
Proof.
  repeat split; intros; vm_compute; reflexivity.
Qed.

(** The type of a request matters to [generate_text] only through the test
    for the text classify. *)
Lemma generate_text_type_irrelevant (L : Lib) (E : Env) (prompt ty : string)
    (n : Z) (temp : Q) (c : Client) (w : World) :
  String.eqb ty "classify" = false ->
  generate_text L E prompt ty n temp c w
  = generate_text L E prompt default_type_of_request n temp c w.
Proof.
  intro H.
  unfold generate_text, generate_text_body, generation_request,
    decoding_parameters.
  rewrite H. reflexivity.
Qed.

(** The direct branch of [_call_watsonx_with_prompt] when the template
    renders: one call of [generate_text] with its defaults. *)
Lemma call_with_prompt_direct (L : Lib) (E : Env) (F : FacadeLib)
    (template prompt : string) (vars : list (string * string)) (c : Client)
    (w : World) :
  py_format L F template vars = Ok prompt ->
  WatsonxAI._call_watsonx_with_prompt L E F true template vars c w
  = generate_text L E prompt default_type_of_request default_max_tokens
      default_temperature c w.
Proof.
  intro Hf.
  unfold WatsonxAI._call_watsonx_with_prompt, try_except, bind, lift.
  rewrite Hf.
  destruct (generate_text_run L E prompt default_type_of_request
              default_max_tokens default_temperature c w) as [v Hv].
  rewrite Hv. reflexivity.
Qed.

(** X15.  With the direct API switched on, the facade behaves exactly as
    the direct client for code generation, test generation, bug fixing,
    summaries and chat: the same requests, the same result, the same
    state, for all arguments and in every environment. *)
Theorem facade_matches_direct_client (L : Lib) (E : Env) (F : FacadeLib)
    (op : operation) (c : Client) (w : World) :
  match op with
  | OpClassifyRequirements _ => True
  | _ => facade_perform L E F true op c w = perform L E (direct_call op) c w
  end.
Proof.
  destruct op as [r l | co f | co d | co | r | q ctx];
    cbn [facade_perform perform direct_call]; try exact I.
  - unfold WatsonxAI.generate_code, generate_code.
    rewrite (call_with_prompt_direct L E F _ (generate_code_prompt r l))
      by (vm_compute; reflexivity).
    symmetry. now apply generate_text_type_irrelevant.
  - unfold WatsonxAI.generate_tests, generate_tests.
    rewrite (call_with_prompt_direct L E F _ (generate_tests_prompt co f))
      by (vm_compute; reflexivity).
    symmetry. now apply generate_text_type_irrelevant.
  - unfold WatsonxAI.fix_bugs, fix_bugs.
    rewrite (call_with_prompt_direct L E F _ (fix_bugs_prompt co d))
      by (vm_compute; reflexivity).
    symmetry. now apply generate_text_type_irrelevant.
  - unfold WatsonxAI.summarize_code, summarize_code.
    rewrite (call_with_prompt_direct L E F _ (summarize_code_prompt co))
      by (vm_compute; reflexivity).
    symmetry. now apply generate_text_type_irrelevant.
  - unfold WatsonxAI.chat_assistant, chat_assistant.
    rewrite (call_with_prompt_direct L E F _
               (chat_prompt (if truthy (JStr ctx)
                             then "Context: " ++ ctx ++ nl
                             else EmptyString) q))
      by (vm_compute; reflexivity).
    symmetry. now apply generate_text_type_irrelevant.
Qed.

(** X16.  Classification through the facade is not sent as the direct
    client sends it: the facade calls [generate_text] with its defaults, so
    the request carries the same prompt but the temperature 0.7, never the
    0.1 of the direct client's own [classify_requirements]. *)
Theorem facade_classification_temperature (L : Lib) (E : Env)
    (F : FacadeLib) (requirements : string) (c : Client) (w : World) :
  let w' := snd (WatsonxAI.classify_requirements L E F true requirements c w) in
  let wd := snd (classify_requirements L E requirements c w) in
  Forall (fun r =>
            request_temperature r = Some (JFloat (7 # 10))
            /\ request_input r
               = Some (classify_requirements_prompt requirements))
         (generation_requests w w')
  /\ Forall (fun r =>
               request_temperature r = Some (JFloat (1 # 10))
               /\ request_input r
                  = Some (classify_requirements_prompt requirements))
            (generation_requests w wd)
  /\ List.length (generation_requests w w')
     = List.length (generation_requests w wd).
Proof.
  cbv zeta.
  assert (Hf : snd (WatsonxAI.classify_requirements L E F true requirements c w)
               = snd (generate_text L E (classify_requirements_prompt requirements)
                        default_type_of_request default_max_tokens
                        default_temperature c w)).
  { unfold WatsonxAI.classify_requirements, bind.
    rewrite (call_with_prompt_direct L E F _
               (classify_requirements_prompt requirements))
      by (vm_compute; reflexivity).
    destruct (generate_text_run L E (classify_requirements_prompt requirements)
                default_type_of_request default_max_tokens
                default_temperature c w) as [v Hv].
    rewrite Hv.
    match goal with
    | |- context [extract_classification L v ?c1 ?w1] =>
        destruct (extract_classification_total L v c1 w1) as [v' Hv']
    end.
    rewrite Hv'. reflexivity. }
  destruct (classify_requirements_world L E requirements c w) as [Hd _].
  rewrite Hf, Hd.
  pose proof (generate_text_requests L E
                (classify_requirements_prompt requirements)
                default_type_of_request default_max_tokens
                default_temperature c w) as H1.
  pose proof (generate_text_requests L E
                (classify_requirements_prompt requirements)
                "classify" default_max_tokens (1 # 10) c w) as H2.
  destruct (_get_access_token L E c w) as [[res c1] w1].
  destruct (generate_text L E _ default_type_of_request _ _ c w) as [[o1 c1'] w1'].
  destruct (generate_text L E _ "classify" _ _ c w) as [[o2 c2'] w2'].
  cbn [snd]. rewrite H1, H2.
  destruct res as [tok | e].
  - split; [| split]; [constructor; [split; reflexivity | constructor] ..
                      | reflexivity].
  - split; [| split]; [constructor .. | reflexivity].
Qed.


(* ===================================================================== *)
(** ** The chat pages                                                     *)
(* ===================================================================== *)

(** X18.  [format_history] never shows the last message: the history of a
    list that ends with a message is the lines of the messages before it,
    whatever that last message is, and an empty list gives the empty text.
    A line is labelled User when the speaker is exactly the text user, and
    AI for every other speaker. *)
Theorem format_history_drops_last :
  (forall ms m,
      IntegrationChat.format_history (ms ++ [m])
      = join nl (map IntegrationChat.history_line ms))
  /\ IntegrationChat.format_history [] = EmptyString
  /\ (forall text, IntegrationChat.history_line ("user", text) = "User: " ++ text)
  /\ (forall speaker text,
         speaker <> "user" ->
         IntegrationChat.history_line (speaker, text) = "AI: " ++ text).
Proof.
  split; [| split; [| split]].
  - intros ms m. unfold IntegrationChat.format_history.
    now rewrite removelast_last.
  - reflexivity.
  - reflexivity.
  - intros speaker text Hne. unfold IntegrationChat.history_line.
    apply String.eqb_neq in Hne. now rewrite Hne.
Qed.

Lemma join_last (sep : string) (l : list string) (x : string) :
  exists pre, join sep (l ++ [x]) = pre ++ x.
Proof.
  induction l as [| y l [pre IH]]; [exists EmptyString; reflexivity |].
  cbn [app join]. destruct (l ++ [x])%list as [| z r] eqn:Hl.
  - destruct l; discriminate.
  - rewrite IH. exists (y ++ sep ++ pre). now rewrite !append_assoc.
Qed.

(** X19.  One turn of the chat of [watsonx_integration.py].  Because the
    input joins the session before the reply is asked for, the history
    handed to the chain is the whole session with the current input as its
    last line, labelled User.  When the chain is built, the turn adds
    exactly two messages to the session, the input of the user and then the
    reply, and raises nothing: a chain that fails when invoked gives the
    warning text as the reply.  When building the chain raises, that
    exception leaves the turn, since lines 73 and 74 are outside the [try],
    and the session has gained the input of the user only. *)
Theorem chat_turn_effect (F : FacadeLib) (build_chain : string -> option exn)
    (w : World) (session_messages : list (string * string))
    (user_prompt : string) :
  let messages := (session_messages ++ [("user", user_prompt)])%list in
  let history := join nl (map IntegrationChat.history_line messages) in
  IntegrationChat.reply_history messages user_prompt = history
  /\ (exists pre, history = pre ++ "User: " ++ user_prompt)
  /\ match build_chain IntegrationChat.chat_template with
     | None =>
         exists reply,
           IntegrationChat.chat_turn F build_chain w session_messages user_prompt
           = (Ok reply,
              (session_messages
               ++ [("user", user_prompt); ("assistant", reply)])%list)
           /\ reply
              = match chain_invoke F w IntegrationChat.chat_template
                        [("history", history); ("input", user_prompt)] with
                | Ok result => py_strip F result
                | Raise e => "⚠️ Error: " ++ exc_str e
                end
     | Some e =>
         IntegrationChat.chat_turn F build_chain w session_messages user_prompt
         = (Raise e, messages)
     end.
Proof.
  cbv zeta.
  assert (Hh : IntegrationChat.reply_history
                 (session_messages ++ [("user", user_prompt)]) user_prompt
               = join nl (map IntegrationChat.history_line
                            (session_messages ++ [("user", user_prompt)]))).
  { unfold IntegrationChat.reply_history, IntegrationChat.format_history.
    now rewrite removelast_last. }
  split; [exact Hh |]. split.
  - rewrite map_app. cbn [map IntegrationChat.history_line].
    change (if String.eqb "user" "user" then "User" else "AI") with "User".
    apply join_last.
  - unfold IntegrationChat.chat_turn, IntegrationChat.get_ai_reply.
    destruct (build_chain IntegrationChat.chat_template) as [e |];
      [reflexivity |].
    rewrite Hh.
    destruct (chain_invoke F w IntegrationChat.chat_template _) as [result | e].
    + eexists. split; [| reflexivity]. now rewrite <- app_assoc.
    + assert (He : isinstance e Exception = true)
        by (unfold isinstance; destruct (exc_class e); reflexivity).
      rewrite He. eexists. split; [| reflexivity]. now rewrite <- app_assoc.
Qed.

Lemma lastn_snoc {A} (n : nat) (l : list A) (x : A) :
  lastn (S n) (l ++ [x]) = (lastn n l ++ [x])%list.
Proof.
  unfold lastn. rewrite length_app. cbn [List.length].
  replace (List.length l + 1 - S n)%nat with (List.length l - n)%nat by lia.
  rewrite skipn_app.
  replace (List.length l - n - List.length l)%nat with 0%nat by lia.
  reflexivity.
Qed.

Lemma lastn_length {A} (n : nat) (l : list A) :
  (List.length (lastn n l) <= n)%nat.
Proof. unfold lastn. rewrite length_skipn. lia. Qed.

(** X20.  The context that the chat page of [streamlit_app.py] hands to
    the assistant never holds the current input: it is made of the messages
    before it, the last five at most, one per line in their order, and it
    is empty for the first message of a session. *)
Theorem chat_context_window (prev : list (string * string))
    (m : string * string) :
  ChatPage.chat_context (prev ++ [m])
  = join nl (map ChatPage.context_line (lastn 5 prev))
  /\ (List.length (lastn 5 prev) <= 5)%nat
  /\ ChatPage.chat_context [m] = EmptyString
  /\ ChatPage.chat_context [] = EmptyString.
Proof.
  split; [| split; [apply lastn_length | split; reflexivity]].
  unfold ChatPage.chat_context.
  rewrite lastn_snoc, removelast_last, length_app. cbn [List.length].
  destruct prev as [| p prev]; [reflexivity |].
  cbn [List.length].
  replace (1 <? S (List.length prev) + 1)%nat with true
    by (symmetry; apply Nat.ltb_lt; lia).
  reflexivity.
Qed.

(* ===================================================================== *)
(** ** The further statements at concrete inputs                          *)
(* ===================================================================== *)

(** A client whose token expired at 500 meets a timeout of the identity
    endpoint at 1000: it raises and still holds the old token and expiry. *)
Lemma failed_refresh_keeps_cache_witness :
  let E := scripted_env 1000 (Failed TimeoutFault "timed out") (generated "done") in
  let c := with_token sample_client (JStr "old") 500 in
  let run := _get_access_token sample_lib E c fresh_world in
  needs_refresh E c fresh_world = true
  /\ (exists e, fst (fst run) = Raise e)
  /\ access_token (snd (fst run)) = JStr "old"
  /\ token_expiry (snd (fst run)) = 500.
Proof.
  cbv zeta.
  pose proof (failed_refresh_keeps_cache sample_lib
                (scripted_env 1000 (Failed TimeoutFault "timed out")
                   (generated "done"))
                (with_token sample_client (JStr "old") 500) fresh_world
                eq_refl eq_refl) as H.
  destruct (_get_access_token sample_lib
              (scripted_env 1000 (Failed TimeoutFault "timed out")
                 (generated "done"))
              (with_token sample_client (JStr "old") 500) fresh_world)
    as [[res c'] w'].
  cbn [fst snd]. destruct H as (He & -> & _).
  split; [reflexivity |]. split; [exact He |]. split; reflexivity.
Defined.

(** A token granted at 1000 is good until 4000: five readings of the clock
    later it is returned again without a request. *)
Lemma refresh_then_reuse_witness :
  let E := scripted_env 1000 (token_grant "tok-1") (generated "done") in
  let run := _get_access_token sample_lib E sample_client fresh_world in
  let later := mkWorld 5 (wire (snd run)) in
  needs_refresh E sample_client fresh_world = true
  /\ token_expiry (snd (fst run)) = 4000
  /\ _get_access_token sample_lib E (snd (fst run)) later
     = (Ok (JStr "tok-1"), snd (fst run), mkWorld 6 (wire (snd run))).
Proof.
  cbv zeta.
  set (E := scripted_env 1000 (token_grant "tok-1") (generated "done")).
  set (run := _get_access_token sample_lib E sample_client fresh_world).
  assert (Hrun : run = (Ok (JStr "tok-1"), snd (fst run), snd run))
    by (vm_compute; reflexivity).
  destruct (refresh_then_reuse sample_lib E sample_client (snd (fst run))
              fresh_world (snd run) (JStr "tok-1") eq_refl Hrun)
    as (Hexp & Hlater).
  split; [reflexivity |]. split; [exact Hexp |].
  apply (proj1 (Hlater (mkWorld 5 (wire (snd run))))).
  vm_compute. reflexivity.
Defined.

(** The generation endpoint answers with one result: its text comes back. *)
Lemma generate_text_returns_first_result_witness :
  let E := scripted_env 1000 (token_grant "tok-1") (generated "done") in
  fst (fst (generate_text sample_lib E "hi" "general" 1000 (7 # 10)
              sample_client fresh_world))
  = Ok (JStr "done").
Proof.
  cbv zeta.
  set (E := scripted_env 1000 (token_grant "tok-1") (generated "done")).
  set (run := _get_access_token sample_lib E sample_client fresh_world).
  assert (Hrun : run = (Ok (JStr "tok-1"), snd (fst run), snd run))
    by (vm_compute; reflexivity).
  apply (generate_text_returns_first_result sample_lib E "hi" "general" 1000
           (7 # 10) sample_client (snd (fst run)) fresh_world (snd run)
           (JStr "tok-1")
           (mkResponse 200 "OK" "https://endpoint.example"
              ("{" ++ quoted "results" ++ ": [{" ++ quoted "generated_text"
               ++ ": " ++ quoted "done" ++ "}]}"))
           [("results", JArr [JObj [("generated_text", JStr "done")]])]
           [("generated_text", JStr "done")] [] (JStr "done") Hrun);
    vm_compute; reflexivity.
Defined.

(** The generation endpoint answers with an empty object. *)
Lemma generate_text_unexpected_format_witness :
  let E := scripted_env 1000 (token_grant "tok-1") (ok_response "{}") in
  fst (fst (generate_text sample_lib E "hi" "general" 1000 (7 # 10)
              sample_client fresh_world))
  = Ok (JStr "Error: Unexpected response format from Watsonx API: {}").
Proof.
  cbv zeta.
  set (E := scripted_env 1000 (token_grant "tok-1") (ok_response "{}")).
  set (run := _get_access_token sample_lib E sample_client fresh_world).
  assert (Hrun : run = (Ok (JStr "tok-1"), snd (fst run), snd run))
    by (vm_compute; reflexivity).
  apply (generate_text_unexpected_format sample_lib E "hi" "general" 1000
           (7 # 10) sample_client (snd (fst run)) fresh_world (snd run)
           (JStr "tok-1")
           (mkResponse 200 "OK" "https://endpoint.example" "{}") [] Hrun);
    try (vm_compute; reflexivity).
  left. reflexivity.
Defined.

(** The generation endpoint answers 200 with a page that is no JSON. *)
Lemma generate_text_malformed_answer_witness :
  let E := scripted_env 1000 (token_grant "tok-1") (ok_response "<html>") in
  fst (fst (generate_text sample_lib E "hi" "general" 1000 (7 # 10)
              sample_client fresh_world))
  = Ok (JStr ("JSON decode error: Expecting value"
              ++ " - Could not parse Watsonx API response")).
Proof.
  cbv zeta.
  set (E := scripted_env 1000 (token_grant "tok-1") (ok_response "<html>")).
  set (run := _get_access_token sample_lib E sample_client fresh_world).
  assert (Hrun : run = (Ok (JStr "tok-1"), snd (fst run), snd run))
    by (vm_compute; reflexivity).
  apply (proj1 (generate_text_malformed_answer sample_lib E "hi" "general"
                  1000 (7 # 10) sample_client (snd (fst run)) fresh_world
                  (snd run) (JStr "tok-1")
                  (mkResponse 200 "OK" "https://endpoint.example" "<html>")
                  Hrun ltac:(vm_compute; reflexivity)
                  ltac:(vm_compute; reflexivity)));
    vm_compute; reflexivity.
Defined.

(** The identity endpoint cannot be reached: the caller gets the text, and
    the generation endpoint is never asked. *)
Lemma generate_text_authentication_failure_witness :
  let E := scripted_env 1000 (Failed ConnectionFault "unreachable")
             (generated "done") in
  let run := generate_text sample_lib E "hi" "general" 1000 (7 # 10)
               sample_client fresh_world in
  needs_refresh E sample_client fresh_world = true
  /\ fst (fst run)
     = Ok (JStr "Unexpected error during API call: Authentication failed: unreachable")
  /\ generation_requests fresh_world (snd run) = [].
Proof.
  cbv zeta.
  pose proof (generate_text_authentication_failure sample_lib
                (scripted_env 1000 (Failed ConnectionFault "unreachable")
                   (generated "done"))
                "hi" "general" 1000 (7 # 10) sample_client fresh_world
                ConnectionFault "unreachable" eq_refl eq_refl) as H.
  destruct (generate_text sample_lib
              (scripted_env 1000 (Failed ConnectionFault "unreachable")
                 (generated "done"))
              "hi" "general" 1000 (7 # 10) sample_client fresh_world)
    as [[res c'] w'].
  cbn [fst snd]. destruct H as (Hres & _ & Hreq & _).
  split; [reflexivity |]. split; [exact Hres | exact Hreq].
Defined.

(** A text whose only closing brace comes before its only opening one. *)
Lemma parser_needs_ordered_braces_witness :
  first_at "{" "} {" 2%nat /\ last_at "}" "} {" 0%nat
  /\ extract_classification sample_lib (JStr "} {") sample_client fresh_world
     = (Ok (JObj [("error", JStr "No valid JSON found in response");
                  ("raw_response", JStr "} {")]), sample_client, fresh_world).
Proof.
  assert (Hi : first_at "{" "} {" 2%nat).
  { split; [reflexivity |]. intros k Hk.
    do 2 (destruct k as [| k]; [discriminate |]). lia. }
  assert (Hj : last_at "}" "} {" 0%nat).
  { split; [reflexivity |]. intros k Hk.
    destruct k as [| k]; [lia |].
    do 2 (destruct k as [| k]; [discriminate |]). discriminate. }
  split; [exact Hi |]. split; [exact Hj |].
  apply parser_needs_ordered_braces.
  right. right. exists 2%nat, 0%nat. split; [exact Hi |]. split; [exact Hj | lia].
Defined.

(** With the decoder of the model, a text in braces that is no JSON still
    comes back as a dict, the fallback one. *)
Lemma classification_is_a_dict_witness :
  exists d,
    extract_classification sample_lib (JStr "{oops}") sample_client
      fresh_world
    = (Ok (JObj d), sample_client, fresh_world).
Proof.
  apply (proj1 (classification_is_a_dict sample_lib
                  (scripted_env 0 (token_grant "t") (generated "x"))
                  loads_object)).
Defined.

